(** * Financial Metrics Engine: a shallow embedding of [app.py]

    The development follows [FinancialAnalyzer] and the two request
    handlers that feed it ([upload_file], [analyze_data]).

    Modelling conventions.
    - A pandas [DataFrame] is column oriented: a finite map from column
      names to numeric series, plus the [Month] column, which is text as
      read from the CSV and becomes a datetime series once
      [FinancialAnalyzer.__init__] has run.
    - Monetary amounts are exact rationals ([Q]); Python floats are not
      modelled bit for bit.  The one place where pandas produces a NaN out
      of well-formed numbers, the mean of a series without rows, is
      modelled by [None].
    - A Python exception is a value of [exn]; a computation that may raise
      has type [result A].
    - [json.dumps(fig, ...)] is the rendering layer: a chart builder
      returns the [Figure] it has built. *)

From Stdlib Require Import QArith Qabs Qround Lqa Ascii String.
From stdpp Require Import base strings gmap list pretty.

Open Scope Q_scope.

(** ** Exceptions and the error monad *)

(** The exceptions the program can raise.  A [KeyError] carries the column
    names that were looked up and not found. *)
Inductive exn : Type :=
  | KeyError (missing : list string)
  | ValueError (msg : string)
  | AttributeError (msg : string)
  | ZeroDivisionError (msg : string)
  | OSError (msg : string).

Inductive result (A : Type) : Type :=
  | Ok (a : A)
  | Raise (e : exn).
Arguments Ok {A} a.
Arguments Raise {A} e.

#[global] Instance result_ret : MRet result := λ A a, Ok a.
#[global] Instance result_bind : MBind result := λ A B f m,
  match m with
  | Ok a => f a
  | Raise e => Raise e
  end.

(** [mapM] for [result]: the first exception wins, as in a Python loop. *)
Fixpoint traverse {A B : Type} (f : A → result B) (l : list A) : result (list B) :=
  match l with
  | [] => Ok []
  | a :: l' => b ← f a; bs ← traverse f l'; mret (b :: bs)
  end.

(** ** Comparison of amounts *)

(** [x < y] on rationals, as a boolean. *)
Definition Qltb (x y : Q) : bool := (Qnum x * QDen y <? Qnum y * QDen x)%Z.

(** ** Data model *)

(** The part of a pandas [Timestamp] a monthly record has. *)
Record Timestamp : Type := mkTimestamp {
  ts_year : nat;
  ts_month : nat;
  ts_day : nat
}.

(** The [Month] column: [object] dtype (text) after [read_csv],
    [datetime64] after [pd.to_datetime]. *)
Inductive MonthSeries : Type :=
  | MonthText (cells : list string)
  | MonthDates (cells : list Timestamp).

Record DataFrame : Type := mkDataFrame {
  df_rows : nat;                       (* len(df) *)
  df_month : option MonthSeries;       (* df['Month'], when present *)
  df_columns : gmap string (list Q)    (* the numeric columns *)
}.

(** [df[c]] for a numeric column. *)
Definition getitem (df : DataFrame) (c : string) : result (list Q) :=
  match df_columns df !! c with
  | Some s => Ok s
  | None => Raise (KeyError [c])
  end.

(** [df['Month']]. *)
Definition getitem_month (df : DataFrame) : result MonthSeries :=
  match df_month df with
  | Some s => Ok s
  | None => Raise (KeyError ["Month"])
  end.

(** [df['Month'] = s]. *)
Definition setitem_month (df : DataFrame) (s : MonthSeries) : DataFrame :=
  {| df_rows := df_rows df; df_month := Some s; df_columns := df_columns df |}.

(** The columns of [cols] the frame does not have. *)
Definition missing_columns (df : DataFrame) (cols : list string) : list string :=
  filter (λ c, df_columns df !! c = None) cols.

(** [df[cols]]: every requested column must exist; the [KeyError] lists
    the ones that do not. *)
Definition getitems (df : DataFrame) (cols : list string)
  : result (list (string * list Q)) :=
  match missing_columns df cols with
  | [] => Ok (map (λ c, (c, default [] (df_columns df !! c))) cols)
  | missing => Raise (KeyError missing)
  end.

(** [Series.sum()]. *)
Definition Series_sum (s : list Q) : Q := fold_left Qplus s 0.

(** [Series.mean()]: NaN ([None]) on a series without rows. *)
Definition Series_mean (s : list Q) : option Q :=
  match s with
  | [] => None
  | _ => Some (Series_sum s / inject_Z (Z.of_nat (length s)))
  end.

(** [s < v], the boolean mask. *)
Definition Series_lt (s : list Q) (v : Q) : list bool :=
  map (λ a, Qltb a v) s.

(** [mask.sum()]: the number of [True] cells. *)
Definition mask_sum (m : list bool) : nat :=
  fold_left (λ n b, if b : bool then S n else n) m 0%nat.

(** [df[cols].sum()]: a series of column totals indexed by column name. *)
Definition frame_sum (cols : list (string * list Q)) : list (string * Q) :=
  map (λ p, (p.1, Series_sum p.2)) cols.

(** [Series.idxmax()]: label of the first occurrence of the maximum. *)
Fixpoint idxmax_from (best : string * Q) (s : list (string * Q)) : string :=
  match s with
  | [] => best.1
  | p :: s' => if Qltb best.2 p.2 then idxmax_from p s' else idxmax_from best s'
  end.

Definition idxmax (s : list (string * Q)) : result string :=
  match s with
  | [] => Raise (ValueError "attempt to get argmax of an empty sequence")
  | p :: s' => Ok (idxmax_from p s')
  end.

(** [strftime('%Y-%m')]: four digits of the year, a dash, two of the month. *)
Definition digit (n : nat) : ascii := ascii_of_nat (48 + n mod 10).

Definition strftime_Ym (t : Timestamp) : string :=
  String (digit (ts_year t / 1000))
    (String (digit (ts_year t / 100))
       (String (digit (ts_year t / 10))
          (String (digit (ts_year t))
             (String "-"%char
                (String (digit (ts_month t / 10))
                   (String (digit (ts_month t)) EmptyString)))))).

(** [series.dt.strftime('%Y-%m')]: the [.dt] accessor exists on datetime
    series only. *)
Definition dt_strftime_Ym (s : MonthSeries) : result (list string) :=
  match s with
  | MonthDates ts => Ok (map strftime_Ym ts)
  | MonthText _ =>
      Raise (AttributeError "Can only use .dt accessor with datetimelike values")
  end.

(** ** Charts *)

(** A plotly trace.  [Scatter] and [Bar] carry x and y values, [Pie]
    carries labels and values. *)
Inductive Trace : Type :=
  | Scatter (name : string) (x : list string) (y : list Q)
            (mode : string) (line_color : string) (line_width : nat)
            (fill : option string)
  | Bar (name : string) (x : list string) (y : list Q)
  | Pie (labels : list string) (values : list Q) (hole : Q).

(** What [fig.add_hline] adds: a horizontal line of the layout, spanning
    the plot at height [hline_y], with its annotation. *)
Record HLine : Type := mkHLine {
  hline_y : Q;
  hline_dash : string;
  hline_color : string;
  hline_annotation : string
}.

Record Layout : Type := mkLayout {
  title : string;
  xaxis_title : option string;
  yaxis_title : option string;
  barmode : option string;
  template : string
}.

Record Figure : Type := mkFigure {
  fig_data : list Trace;       (* the data traces, in the order added *)
  fig_hlines : list HLine;     (* layout shapes *)
  fig_layout : Layout
}.

Definition trace_x (t : Trace) : list string :=
  match t with
  | Scatter _ x _ _ _ _ _ | Bar _ x _ => x
  | Pie labels _ _ => labels
  end.

Definition trace_y (t : Trace) : list Q :=
  match t with
  | Scatter _ _ y _ _ _ _ | Bar _ _ y => y
  | Pie _ values _ => values
  end.

(** ** FinancialAnalyzer *)

(** The eleven expense categories, in the order the source lists them. *)
Definition expense_columns : list string :=
  ["Rent"; "Utilities"; "Insurance"; "Loan_Payments";
   "Groceries"; "Transportation"; "Entertainment";
   "Healthcare"; "Shopping"; "Dining_Out"; "Subscriptions"].

Definition amount_axis : string := "Amount (₹)".

(** [get_income_trend]. *)
Definition get_income_trend (df : DataFrame) : result Figure :=
  m ← getitem_month df;
  x_values ← dt_strftime_Ym m;
  y_values ← getitem df "Income";
  mret {| fig_data :=
            [Scatter "Income" x_values y_values "lines+markers" "#2E8B57" 3 None];
          fig_hlines := [];
          fig_layout := {| title := "Monthly Income Trend";
                           xaxis_title := Some "Month";
                           yaxis_title := Some amount_axis;
                           barmode := None;
                           template := "plotly_white" |} |}.

(** [get_expense_breakdown]. *)
Definition get_expense_breakdown (df : DataFrame) : result Figure :=
  cols ← getitems df expense_columns;
  let total_expenses := frame_sum cols in
  let labels := map fst total_expenses in
  let values := map snd total_expenses in
  mret {| fig_data := [Pie labels values (3 # 10)];
          fig_hlines := [];
          fig_layout := {| title := "Annual Expense Breakdown";
                           xaxis_title := None;
                           yaxis_title := None;
                           barmode := None;
                           template := "plotly_white" |} |}.

(** [get_monthly_expenses]: one bar trace per category, in list order. *)
Definition get_monthly_expenses (df : DataFrame) : result Figure :=
  traces ← traverse (λ col,
              m ← getitem_month df;
              x_values ← dt_strftime_Ym m;
              y_values ← getitem df col;
              mret (Bar col x_values y_values)) expense_columns;
  mret {| fig_data := traces;
          fig_hlines := [];
          fig_layout := {| title := "Monthly Expenses by Category";
                           xaxis_title := Some "Month";
                           yaxis_title := Some amount_axis;
                           barmode := Some "stack";
                           template := "plotly_white" |} |}.

(** [get_savings_analysis]. *)
Definition get_savings_analysis (df : DataFrame) : result Figure :=
  m ← getitem_month df;
  x_values ← dt_strftime_Ym m;
  savings_values ← getitem df "Savings";
  investment_values ← getitem df "Investments";
  mret {| fig_data :=
            [Scatter "Savings" x_values savings_values
               "lines+markers" "#4169E1" 3 None;
             Scatter "Investments" x_values investment_values
               "lines+markers" "#FF6347" 3 None];
          fig_hlines := [];
          fig_layout := {| title := "Savings and Investments Trend";
                           xaxis_title := Some "Month";
                           yaxis_title := Some amount_axis;
                           barmode := None;
                           template := "plotly_white" |} |}.

(** [get_net_income_trend]. *)
Definition get_net_income_trend (df : DataFrame) : result Figure :=
  m ← getitem_month df;
  x_values ← dt_strftime_Ym m;
  y_values ← getitem df "Net_Income";
  mret {| fig_data :=
            [Scatter "Net Income" x_values y_values
               "lines+markers" "#32CD32" 3 (Some "tonexty")];
          fig_hlines :=
            [{| hline_y := 0; hline_dash := "dash"; hline_color := "red";
                hline_annotation := "Break-even Line" |}];
          fig_layout := {| title := "Monthly Net Income Trend";
                           xaxis_title := Some "Month";
                           yaxis_title := Some amount_axis;
                           barmode := None;
                           template := "plotly_white" |} |}.

(** The dictionary [get_financial_summary] returns. *)
Record Summary : Type := mkSummary {
  total_income : Q;
  total_expenses : Q;
  total_savings : Q;
  total_investments : Q;
  net_income : Q;
  average_monthly_income : option Q;
  average_monthly_expenses : option Q;
  average_monthly_savings : option Q;
  savings_rate : Q;
  traditional_savings_rate : Q;
  months_in_deficit : nat;
  largest_expense_category : string
}.

(** [get_financial_summary]. *)
Definition get_financial_summary (df : DataFrame) : result Summary :=
  income ← getitem df "Income";
  let total_income := Series_sum income in
  expenses ← getitem df "Total_Expenses";
  let total_expenses := Series_sum expenses in
  savings ← getitem df "Savings";
  let total_savings := Series_sum savings in
  investments ← getitem df "Investments";
  let total_investments := Series_sum investments in
  let net_income := total_income - total_expenses in
  let actual_savings_rate :=
    if Qltb 0 net_income
    then (if Qltb 0 net_income then (total_savings / net_income) * 100 else 0)
    else 0 in
  let traditional_savings_rate :=
    if Qltb 0 total_income then (total_savings / total_income) * 100 else 0 in
  net ← getitem df "Net_Income";
  cols ← getitems df expense_columns;
  largest ← idxmax (frame_sum cols);
  mret {| total_income := total_income;
          total_expenses := total_expenses;
          total_savings := total_savings;
          total_investments := total_investments;
          net_income := net_income;
          average_monthly_income := Series_mean income;
          average_monthly_expenses := Series_mean expenses;
          average_monthly_savings := Series_mean savings;
          savings_rate := actual_savings_rate;
          traditional_savings_rate := traditional_savings_rate;
          months_in_deficit := mask_sum (Series_lt net 0);
          largest_expense_category := largest |}.

(** ** The request handlers *)

(** [s.endswith(suffix)]. *)
Definition endswith (s suffix : string) : bool :=
  (String.length suffix <=? String.length s)%nat &&
  String.eqb
    (substring (String.length s - String.length suffix) (String.length suffix) s)
    suffix.

(** [s.startswith(prefix)]. *)
Fixpoint startswith (s prefix : string) {struct prefix} : bool :=
  match prefix with
  | EmptyString => true
  | String a prefix' =>
      match s with
      | EmptyString => false
      | String b s' => Ascii.eqb a b && startswith s' prefix'
      end
  end.

(** [os.path.join(a, b)]: an absolute [b] replaces [a]. *)
Definition os_path_join (a b : string) : string :=
  if startswith b "/" then b
  else if String.eqb a "" || endswith a "/" then a +:+ b
  else a +:+ "/" +:+ b.

(** [s.split('/')]. *)
Fixpoint split_slash (s : string) : list string :=
  match s with
  | EmptyString => [EmptyString]
  | String c s' =>
      if Ascii.eqb c "/" then EmptyString :: split_slash s'
      else match split_slash s' with
           | comp :: comps => String c comp :: comps
           | [] => [String c EmptyString]
           end
  end.

(** The loop of [os.path.normpath] over the components of a path;
    [new_comps] is kept last component first. *)
Fixpoint normpath_loop (initial_slashes : bool) (new_comps comps : list string)
  : list string :=
  match comps with
  | [] => reverse new_comps
  | comp :: comps' =>
      if String.eqb comp "" || String.eqb comp "."
      then normpath_loop initial_slashes new_comps comps'
      else if negb (String.eqb comp "..")
      then normpath_loop initial_slashes (comp :: new_comps) comps'
      else match new_comps with
           | [] =>
               if initial_slashes
               then normpath_loop initial_slashes [] comps'
               else normpath_loop initial_slashes [comp] comps'
           | last :: rest =>
               if String.eqb last ".."
               then normpath_loop initial_slashes (comp :: new_comps) comps'
               else normpath_loop initial_slashes rest comps'
           end
  end.

(** [os.path.normpath(path)], the file a path names: empty and [.]
    components dropped, [..] resolved against the component before it. *)
Definition normpath (path : string) : string :=
  if String.eqb path "" then "."
  else
    let initial_slashes := startswith path "/" in
    let slashes :=
      if startswith path "//" && negb (startswith path "///") then "//"
      else if initial_slashes then "/" else "" in
    let comps := normpath_loop initial_slashes [] (split_slash path) in
    let path := slashes +:+ String.concat "/" comps in
    if String.eqb path "" then "." else path.

(** The uploaded file of a request. *)
Record FileStorage : Type := mkFileStorage {
  filename : string;
  stream : string
}.

(** What the disk does with [file.save(filepath)]: the file is written, or
    the call raises, before anything is written ([written] is [None]) or
    with [written] left in the file. *)
Inductive SaveOutcome : Type :=
  | Saved
  | SaveFailed (e : exn) (written : option string).

(** A request to [/upload]: the length of its body in bytes, its ['file']
    part if it has one, and what the disk does with the save. *)
Record UploadRequest : Type := mkUploadRequest {
  content_length : N;
  file_part : option FileStorage;
  disk : SaveOutcome
}.

(** The six entries of the dictionary [analyze_data] builds. *)
Record Analysis : Type := mkAnalysis {
  income_trend : Figure;
  expense_breakdown : Figure;
  monthly_expenses : Figure;
  savings_analysis : Figure;
  net_income_trend : Figure;
  summary : Summary
}.

(** The body of a response.  The text of an [error] entry is [error],
    followed by [str(cause)] where the handler reports an exception it
    caught.  [ErrorPage] is the page Flask itself answers with, for an HTTP
    exception or for an exception no handler caught. *)
Inductive Body : Type :=
  | JError (error : string) (cause : option exn)
  | JMessage (message : string) (rows : nat)
  | JAnalysis (analysis : Analysis)
  | ErrorPage (name : string).

(** A response: body and HTTP status. *)
Definition Response : Type := Body * nat.

(** What the handlers share: the global [current_data] and the files under
    the working directory, each under its normalized path. *)
Record AppState : Type := mkAppState {
  current_data : option DataFrame;
  files : gmap string string
}.

Definition UPLOAD_FOLDER : string := "uploads".

(** [app.config['MAX_CONTENT_LENGTH']]. *)
Definition MAX_CONTENT_LENGTH : N := 16 * 1024 * 1024.

Section Handlers.

(** The library functions the handlers call, on the values they are
    given: [pd.read_csv] on the contents of the file, werkzeug's
    [secure_filename], and [pd.to_datetime] on a text series. *)
Variable read_csv : string → result DataFrame.
Variable secure_filename : string → string.
Variable to_datetime : list string → result (list Timestamp).

(** [pd.to_datetime(series)]: a datetime series is returned as it is. *)
Definition pd_to_datetime (s : MonthSeries) : result MonthSeries :=
  match s with
  | MonthDates ts => Ok (MonthDates ts)
  | MonthText cells => ts ← to_datetime cells; mret (MonthDates ts)
  end.

(** [FinancialAnalyzer.__init__]: [self.df] is the frame it was given,
    the very object, with its [Month] column replaced. *)
Definition FinancialAnalyzer_init (df : DataFrame) : result DataFrame :=
  m ← getitem_month df;
  m' ← pd_to_datetime m;
  mret (setitem_month df m').

(** The dictionary of [analyze_data], entry by entry. *)
Definition analysis_of (df : DataFrame) : result Analysis :=
  a1 ← get_income_trend df;
  a2 ← get_expense_breakdown df;
  a3 ← get_monthly_expenses df;
  a4 ← get_savings_analysis df;
  a5 ← get_net_income_trend df;
  a6 ← get_financial_summary df;
  mret {| income_trend := a1; expense_breakdown := a2;
          monthly_expenses := a3; savings_analysis := a4;
          net_income_trend := a5; summary := a6 |}.

(** [upload_file].  Reading [request.files] parses the body, which Flask
    refuses with 413 when it is longer than [MAX_CONTENT_LENGTH].
    [file.save] runs before the [try]: what it raises is caught by no
    handler and answered 500. *)
Definition upload_file (req : UploadRequest) (st : AppState)
  : AppState * Response :=
  if (MAX_CONTENT_LENGTH <? content_length req)%N
  then (st, (ErrorPage "Request Entity Too Large", 413%nat))
  else
    match file_part req with
    | None => (st, (JError "No file uploaded" None, 400%nat))
    | Some file =>
        if String.eqb (filename file) ""
        then (st, (JError "No file selected" None, 400%nat))
        else if endswith (filename file) ".csv"
        then
          let filename := secure_filename (filename file) in
          let filepath := os_path_join UPLOAD_FOLDER filename in
          match disk req with
          | SaveFailed e written =>
              ({| current_data := current_data st;
                  files := match written with
                           | Some contents =>
                               <[normpath filepath := contents]> (files st)
                           | None => files st
                           end |},
               (ErrorPage "Internal Server Error", 500%nat))
          | Saved =>
              let saved := <[normpath filepath := stream file]> (files st) in
              match read_csv (stream file) with
              | Ok df =>
                  ({| current_data := Some df; files := saved |},
                   (JMessage "File uploaded successfully" (df_rows df), 200%nat))
              | Raise e =>
                  ({| current_data := current_data st; files := saved |},
                   (JError "Error reading CSV file: " (Some e), 400%nat))
              end
          end
        else (st, (JError "Please upload a CSV file" None, 400%nat))
    end.

(** [analyze_data].  The analyzer works on [current_data] itself, so the
    assignment to its [Month] column in [__init__] is an assignment to
    the global frame. *)
Definition analyze_data (st : AppState) : AppState * Response :=
  match current_data st with
  | None =>
      (st, (JError "No data available. Please upload a CSV file first." None,
            400%nat))
  | Some df =>
      match FinancialAnalyzer_init df with
      | Raise e =>
          (st, (JError "Error analyzing data: " (Some e), 500%nat))
      | Ok self_df =>
          let st' := {| current_data := Some self_df; files := files st |} in
          match analysis_of self_df with
          | Ok analysis => (st', (JAnalysis analysis, 200%nat))
          | Raise e =>
              (st', (JError "Error analyzing data: " (Some e), 500%nat))
          end
      end
  end.

End Handlers.

(** ** A period parser and sample data *)

Definition digit_value (c : ascii) : option nat :=
  let n := nat_of_ascii c in
  if (48 <=? n)%nat && (n <=? 57)%nat then Some (n - 48)%nat else None.

(** One cell of the form [YYYY-MM], the form [generate_synthetic_data.py]
    writes. *)
Definition parse_year_month (s : string) : option Timestamp :=
  match s with
  | String a (String b (String c (String d (String sep
      (String e (String f EmptyString)))))) =>
      y3 ← digit_value a; y2 ← digit_value b;
      y1 ← digit_value c; y0 ← digit_value d;
      m1 ← digit_value e; m0 ← digit_value f;
      let month := (10 * m1 + m0)%nat in
      if Ascii.eqb sep "-" && (1 <=? month)%nat && (month <=? 12)%nat
      then Some (mkTimestamp (1000 * y3 + 100 * y2 + 10 * y1 + y0) month 1)
      else None
  | _ => None
  end.

(** A [to_datetime] for such columns: one bad cell rejects the column. *)
Definition year_month_to_datetime (cells : list string) : result (list Timestamp) :=
  traverse (λ s, match parse_year_month s with
                 | Some t => Ok t
                 | None => Raise (ValueError ("Unknown datetime string format, unable to parse: " +:+ s))
                 end) cells.

(** A frame as [read_csv] returns it: a text [Month] column and numeric
    columns. *)
Definition frame (months : list string) (cols : list (string * list Q))
  : DataFrame :=
  {| df_rows := length months;
     df_month := Some (MonthText months);
     df_columns := list_to_map cols |}.

(** The same frame once an analyzer has been built on it. *)
Definition parsed_frame (months : list Timestamp) (cols : list (string * list Q))
  : DataFrame :=
  {| df_rows := length months;
     df_month := Some (MonthDates months);
     df_columns := list_to_map cols |}.

Definition ym (y m : nat) : Timestamp := mkTimestamp y m 1.

(** Three months; the first one is in deficit. *)
Definition three_months_inputs : list (string * list Q) :=
  [("Income", [1000; 1000; 1000]);
   ("Rent", [600; 400; 400]); ("Utilities", [100; 50; 50]);
   ("Insurance", [50; 50; 50]); ("Loan_Payments", [100; 100; 100]);
   ("Groceries", [150; 100; 100]); ("Transportation", [50; 20; 20]);
   ("Entertainment", [50; 20; 20]); ("Healthcare", [20; 10; 10]);
   ("Shopping", [40; 20; 20]); ("Dining_Out", [30; 20; 20]);
   ("Subscriptions", [10; 10; 10]);
   ("Savings", [0; 50; 50]); ("Investments", [0; 20; 30]);
   ("Total_Expenses", [1200; 800; 800])].

Definition three_months_columns : list (string * list Q) :=
  three_months_inputs ++ [("Net_Income", [-200; 200; 200])].

Definition three_months : DataFrame :=
  parsed_frame [ym 2024 1; ym 2024 2; ym 2024 3] three_months_columns.

(** The same rows, as uploaded, March first. *)
Definition march_first : DataFrame :=
  frame ["2024-03"; "2024-01"; "2024-02"] three_months_columns.

(** The same months with a [Net_Income] column that is not
    [Income - Total_Expenses]. *)
Definition inconsistent_net : DataFrame :=
  parsed_frame [ym 2024 1; ym 2024 2; ym 2024 3]
    (three_months_inputs ++ [("Net_Income", [50; 50; 50])]).

(** The same months with expenses of 1200 in each of them. *)
Definition all_deficit : DataFrame :=
  parsed_frame [ym 2024 1; ym 2024 2; ym 2024 3]
    (("Total_Expenses", [1200; 1200; 1200])
     :: ("Net_Income", [-200; -200; -200]) :: three_months_inputs).

(** The same months without a [Net_Income] column. *)
Definition without_net_income : DataFrame :=
  parsed_frame [ym 2024 1; ym 2024 2; ym 2024 3] three_months_inputs.

(** One month in which [Utilities] and [Shopping] tie for the largest
    total. *)
Definition tied_month : DataFrame :=
  parsed_frame [ym 2024 1]
    [("Income", [1000]);
     ("Rent", [100]); ("Utilities", [300]);
     ("Insurance", [50]); ("Loan_Payments", [100]);
     ("Groceries", [100]); ("Transportation", [20]);
     ("Entertainment", [20]); ("Healthcare", [10]);
     ("Shopping", [300]); ("Dining_Out", [0]);
     ("Subscriptions", [0]);
     ("Savings", [100]); ("Investments", [50]);
     ("Total_Expenses", [1000]); ("Net_Income", [0])].

(** Every column of the schema, no row. *)
Definition no_rows : DataFrame :=
  parsed_frame [] (map (λ c, (c, [])) (map fst three_months_columns)).

(** An upload whose second period is not a month. *)
Definition bad_period_file : FileStorage :=
  {| filename := "budget.csv";
     stream := "Month,Income,Net_Income
2024-01,1000,200
soon,1000,200
" |}.

Definition bad_period_frame : DataFrame :=
  frame ["2024-01"; "soon"]
    [("Income", [1000; 1000]); ("Net_Income", [200; 200])].

(** A [read_csv] that knows this one file. *)
Definition read_budget_csv (contents : string) : result DataFrame :=
  if String.eqb contents (stream bad_period_file)
  then Ok bad_period_frame
  else Raise (ValueError "No columns to parse from file").

Definition no_session : AppState :=
  {| current_data := None; files := ∅ |}.

(** A request of one kibibyte that carries [file], on a disk that takes
    it. *)
Definition upload_of (file : FileStorage) : UploadRequest :=
  {| content_length := 1024; file_part := Some file; disk := Saved |}.

(** ** Notions the statements use *)

(** The frame has every column of [cols]. *)
Definition has_columns (df : DataFrame) (cols : list string) : Prop :=
  Forall (λ c, is_Some (df_columns df !! c)) cols.

(** The columns [get_financial_summary] reads. *)
Definition summary_columns : list string :=
  ["Income"; "Total_Expenses"; "Savings"; "Investments"; "Net_Income"]
  ++ expense_columns.

(** The same columns but [Net_Income]. *)
Definition input_columns : list string :=
  ["Income"; "Total_Expenses"; "Savings"; "Investments"] ++ expense_columns.


#[global] Instance Qlt_decision (x y : Q) : Decision (x < y) :=
  match Qlt_le_dec x y with
  | left H => left H
  | right H => right (Qle_not_lt _ _ H)
  end.

(** The number of strictly negative values. *)
Definition count_negative (s : list Q) : nat :=
  length (filter (λ v, v < 0) s).

(** Adjacent elements are in order. *)
Fixpoint nondecreasing {A : Type} (leb : A → A → bool) (l : list A) : bool :=
  match l with
  | [] => true
  | a :: l' =>
      match l' with
      | [] => true
      | b :: _ => leb a b && nondecreasing leb l'
      end
  end.

(** Chronological order of two periods. *)
Definition period_leb (a b : Timestamp) : bool :=
  (ts_year a <? ts_year b)%nat ||
  ((ts_year a =? ts_year b)%nat && (ts_month a <=? ts_month b)%nat).

(** A timestamp [strftime] prints with a four digit year and a two digit
    month. *)
Definition four_digit_year (t : Timestamp) : Prop :=
  (ts_year t < 100 * 100)%nat ∧ (ts_month t < 100)%nat.

(** Per-row net income as the specification words it: [income] minus
    [total_expenses], row by row. *)
Definition recomputed_net_income (df : DataFrame) : result (list Q) :=
  income ← getitem df "Income";
  expenses ← getitem df "Total_Expenses";
  mret (zip_with Qminus income expenses).

(** The net-income series the specification gives to [months_in_deficit]:
    the input column, or the per-row recompute when that column is
    absent. *)
Definition net_income_or_recompute (df : DataFrame) : result (list Q) :=
  match df_columns df !! "Net_Income" with
  | Some net => Ok net
  | None => recomputed_net_income df
  end.


(** [months_in_deficit] as the specification words it, fallback
    included. *)
Definition deficit_count_with_fallback (df : DataFrame) : Prop :=
  ∃ s net, get_financial_summary df = Ok s ∧
           net_income_or_recompute df = Ok net ∧
           months_in_deficit s = count_negative net.

(** The net-income chart as the specification words it: one trace whose
    values are the per-row recompute. *)
Definition net_income_trend_recomputes (df : DataFrame) : Prop :=
  ∃ fig t r, get_net_income_trend df = Ok fig ∧ fig_data fig = [t] ∧
             recomputed_net_income df = Ok r ∧ Forall2 Qeq (trace_y t) r.

(** The summary of a dataset without rows. *)
Definition empty_summary : Summary :=
  {| total_income := 0;
     total_expenses := 0;
     total_savings := 0;
     total_investments := 0;
     net_income := 0;
     average_monthly_income := None;
     average_monthly_expenses := None;
     average_monthly_savings := None;
     savings_rate := 0;
     traditional_savings_rate := 0;
     months_in_deficit := 0;
     largest_expense_category := "Rent" |}.

(** Case analysis on the boolean comparisons of a goal, each case closed
    by linear arithmetic. *)
Ltac period_leb_cases :=
  repeat match goal with
         | |- context [ (?x <? ?y)%nat ] => destruct (Nat.ltb_spec x y)
         | |- context [ (?x =? ?y)%nat ] => destruct (Nat.eqb_spec x y)
         | |- context [ (?x <=? ?y)%nat ] => destruct (Nat.leb_spec x y)
         end;
  cbn [orb andb]; first [reflexivity | exfalso; lia].

(** ** The adviser and the remaining handlers *)

(** The model names [generate_financial_advice] tries, in order. *)
Definition models_to_try : list string :=
  ["gemini-2.0-flash-exp"; "gemini-1.5-flash"; "gemini-pro"; "gemini-1.5-pro"].

(** The JSON body of a [chat] response. *)
Inductive ChatBody : Type :=
  | CError (error : string) (cause : option exn)
  | CResponse (response : string).

(** A request to one of the four data routes.  [Chat None] is a chat whose
    JSON object has no ['question'] entry. *)
Inductive Request : Type :=
  | Upload (upload : UploadRequest)
  | Analyze
  | Chat (question : option string)
  | LoadSample.

Section Session.

(** What the session calls and does not define: the three functions of
    [Handlers]; [pd.read_csv] on a path of the working directory; the text
    a Gemini model returns for a prompt, [None] where the call raises; and
    the float formats [{:,.2f}], [{:.1f}], [{:,.0f}] and [str]. *)
Variable read_csv : string → result DataFrame.
Variable secure_filename : string → string.
Variable to_datetime : list string → result (list Timestamp).
Variable read_csv_path : string → result DataFrame.
Variable generate_content : string → string → option string.
Variable format_2f : Q → string.
Variable format_1f : Q → string.
Variable format_0f : Q → string.
Variable str_float : Q → string.

(** The [context] of the prompt. *)
Definition advice_context (s : Summary) : string :=
  "
        Financial Data Summary:
        - Annual Income: ₹"
  +:+ format_2f (total_income s)
  +:+ "
        - Annual Expenses: ₹"
  +:+ format_2f (total_expenses s)
  +:+ "
        - Net Income: ₹"
  +:+ format_2f (net_income s)
  +:+ "
        - Savings: ₹"
  +:+ format_2f (total_savings s)
  +:+ "
        - Investments: ₹"
  +:+ format_2f (total_investments s)
  +:+ "
        - Savings Rate: "
  +:+ format_1f (savings_rate s)
  +:+ "%
        - Months in Deficit: "
  +:+ pretty (months_in_deficit s)
  +:+ "
        - Largest Expense: "
  +:+ largest_expense_category s
  +:+ "
        
        Please provide structured, concise financial advice. Format your response as:
        
        ## 🎯 **Key Issues**
        - List 2-3 main problems
        
        ## 💡 **Immediate Actions** 
        - 3-4 specific steps to take now
        
        ## 📊 **Budget Recommendations**
        - Specific expense reduction targets
        - Income improvement suggestions
        
        ## 🎯 **Next Steps**
        - 2-3 follow-up actions
        
        Keep each section brief and actionable. Use bullet points and be specific with amounts and percentages.
        ".

(** The [prompt]. *)
Definition advice_prompt (s : Summary) (user_question : string) : string :=
  let context := advice_context s in
  context
  +:+ "

User Question: "
  +:+ user_question
  +:+ "

Please provide detailed financial advice and recommendations:".

(** The loop over [models_to_try]: the first model that answers wins. *)
Fixpoint first_response (models : list string) (prompt : string)
  : option string :=
  match models with
  | [] => None
  | model_name :: models' =>
      match generate_content model_name prompt with
      | Some text => Some text
      | None => first_response models' prompt
      end
  end.

(** The basic response returned when every model fails. *)
Definition basic_response (s : Summary) : string :=
  "## 🎯 **Key Issues**
- "
  +:+ (if Qltb (net_income s) 0
       then "Spending ₹" +:+ str_float (Qabs (net_income s))
            +:+ " more than you earn annually"
       else "Living within your means")
  +:+ "
- "
  +:+ pretty (months_in_deficit s)
  +:+ " months in deficit spending
- Largest expense: "
  +:+ largest_expense_category s
  +:+ "

## 💡 **Immediate Actions**
- Reduce "
  +:+ largest_expense_category s
  +:+ " expenses by 15-20%
- Create a detailed monthly budget
- Track every expense for 30 days
- Look for ways to increase income

## 📊 **Budget Recommendations**
- Target: Reduce expenses by ₹"
  +:+ format_0f (Qabs (net_income s) + 10000)
  +:+ " annually
- Focus on: "
  +:+ largest_expense_category s
  +:+ " optimization
- Build emergency fund: 3-6 months expenses

## 🎯 **Next Steps**
- Set up expense tracking app
- Review and negotiate "
  +:+ largest_expense_category s
  +:+ " costs
- Explore additional income sources

*Note: AI service temporarily unavailable. This is basic guidance based on your data.*".

(** [generate_financial_advice]. *)
Definition generate_financial_advice
    (data_summary : Summary) (user_question : string) : string :=
  let prompt := advice_prompt data_summary user_question in
  match first_response models_to_try prompt with
  | Some text => text
  | None => basic_response data_summary
  end.

(** [chat]. *)
Definition chat (question : option string) (st : AppState)
  : AppState * (ChatBody * nat) :=
  match current_data st with
  | None =>
      (st, (CError "No data available. Please upload a CSV file first." None,
            400%nat))
  | Some df =>
      let user_question := default "" question in
      if String.eqb user_question ""
      then (st, (CError "No question provided" None, 400%nat))
      else
        match FinancialAnalyzer_init to_datetime df with
        | Raise e =>
            (st, (CError "Error generating response: " (Some e), 500%nat))
        | Ok self_df =>
            let st' := {| current_data := Some self_df; files := files st |} in
            match get_financial_summary self_df with
            | Ok summary =>
                (st', (CResponse (generate_financial_advice summary user_question),
                       200%nat))
            | Raise e =>
                (st', (CError "Error generating response: " (Some e), 500%nat))
            end
        end
  end.

(** [load_sample_data]. *)
Definition load_sample_data (st : AppState) : AppState * Response :=
  match read_csv_path "financial_data.csv" with
  | Ok df =>
      ({| current_data := Some df; files := files st |},
       (JMessage "Sample data loaded successfully" (df_rows df), 200%nat))
  | Raise e =>
      (st, (JError "Error loading sample data: " (Some e), 500%nat))
  end.

(** The state after a request, and the status it is answered with. *)
Definition handle (r : Request) (st : AppState) : AppState * nat :=
  match r with
  | Upload upload =>
      let '(st', (_, status)) := upload_file read_csv secure_filename upload st in
      (st', status)
  | Analyze =>
      let '(st', (_, status)) := analyze_data to_datetime st in (st', status)
  | Chat question =>
      let '(st', (_, status)) := chat question st in (st', status)
  | LoadSample =>
      let '(st', (_, status)) := load_sample_data st in (st', status)
  end.

(** The state after a sequence of requests. *)
Definition run (rs : list Request) (st : AppState) : AppState :=
  foldl (λ st r, (handle r st).1) st rs.

End Session.

(** ** Notions the further statements use *)

(** The bar trace of category [c] over the periods [months]. *)
Definition bar_of (df : DataFrame) (months : list Timestamp) (c : string) : Trace :=
  Bar c (map strftime_Ym months) (default [] (df_columns df !! c)).

(** Every column has one value per row. *)
Definition frame_well_formed (df : DataFrame) : Prop :=
  map_Forall (λ _ col, length col = df_rows df) (df_columns df) ∧
  match df_month df with
  | Some (MonthDates months) => length months = df_rows df
  | Some (MonthText cells) => length cells = df_rows df
  | None => True
  end.

(** The four charts drawn over the period axis. *)
Definition period_charts (a : Analysis) : list Figure :=
  [income_trend a; monthly_expenses a; savings_analysis a; net_income_trend a].




(** [sub] occurs in [s]. *)
Definition contains (s sub : string) : Prop :=
  ∃ before after, s = before +:+ sub +:+ after.

(** No path separator occurs in [s]. *)
Fixpoint no_slash (s : string) : bool :=
  match s with
  | EmptyString => true
  | String c s' => negb (Ascii.eqb c "/") && no_slash s'
  end.

(** A file name without a directory part: no separator in it, and not one
    of the names that stand for a directory. *)
Definition flat_name (name : string) : bool :=
  no_slash name && negb (String.eqb name "") &&
  negb (String.eqb name ".") && negb (String.eqb name "..").

(** The requests that load no data. *)
Definition read_only (r : Request) : Prop :=
  match r with
  | Analyze | Chat _ => True
  | Upload _ | LoadSample => False
  end.

(** Membership in a list that is written out. *)
Ltac in_list := apply list_elem_of_In; simpl; tauto.

(** ** Further sample data *)


(** [three_months] without its [Insurance] and [Shopping] columns. *)
Definition without_two_categories : DataFrame :=
  {| df_rows := df_rows three_months;
     df_month := df_month three_months;
     df_columns := delete "Insurance" (delete "Shopping" (df_columns three_months)) |}.

(** A session in which the rows uploaded March first are the dataset. *)
Definition march_session : AppState :=
  {| current_data := Some march_first; files := ∅ |}.

(** A [secure_filename] that replaces every path separator by an
    underscore. *)
Fixpoint replace_slashes (name : string) : string :=
  match name with
  | EmptyString => EmptyString
  | String c name' =>
      String (if Ascii.eqb c "/" then "_"%char else c) (replace_slashes name')
  end.

(** An upload whose name climbs out of the upload folder. *)
Definition climbing_file : FileStorage :=
  {| filename := "../financial_data.csv"; stream := "Month,Income" |}.

(** An upload that is not a CSV file. *)
Definition notes_file : FileStorage :=
  {| filename := "notes.txt"; stream := "rent is due" |}.

(** An upload [read_budget_csv] does not know. *)
Definition empty_csv_file : FileStorage :=
  {| filename := "empty.csv"; stream := "" |}.

(** No sample file in the working directory. *)
Definition no_sample (path : string) : result DataFrame :=
  Raise (ValueError ("No such file or directory: " +:+ path)).

(** No model answers. *)
Definition no_model (model_name prompt : string) : option string := None.

(** Only [gemini-pro] answers. *)
Definition gemini_pro_only (model_name prompt : string) : option string :=
  if String.eqb model_name "gemini-pro"
  then Some "Build an emergency fund."
  else None.

(** A float format that prints the integer part. *)
Definition format_units (x : Q) : string := pretty (Qfloor x).

(** ** The synthetic data generator *)

(** [max(a, b)] on two numbers. *)
Definition py_max (a b : Q) : Q := if Qltb a b then b else a.

(** Rounding to the nearest integer, ties to the even one. *)
Definition round_half_even (x : Q) : Z :=
  let f := Qfloor x in
  let r := x - inject_Z f in
  if Qltb r (1 # 2) then f
  else if Qltb (1 # 2) r then (f + 1)%Z
  else if Z.even f then f else (f + 1)%Z.

(** [round(x, 2)]. *)
Definition round2 (x : Q) : Q := inject_Z (round_half_even (x * 100)) / 100.

(** [datetime + timedelta(days=n)], a day at a time. *)
Definition is_leap (y : nat) : bool :=
  ((y mod 4 =? 0)%nat && negb (y mod 100 =? 0)%nat) || (y mod 400 =? 0)%nat.

Definition days_in_month (y m : nat) : nat :=
  match m with
  | 2 => if is_leap y then 29 else 28
  | 4 | 6 | 9 | 11 => 30
  | _ => 31
  end%nat.

Definition next_day (t : Timestamp) : Timestamp :=
  if (ts_day t <? days_in_month (ts_year t) (ts_month t))%nat
  then {| ts_year := ts_year t; ts_month := ts_month t; ts_day := S (ts_day t) |}
  else if (ts_month t <? 12)%nat
  then {| ts_year := ts_year t; ts_month := S (ts_month t); ts_day := 1 |}
  else {| ts_year := S (ts_year t); ts_month := 1; ts_day := 1 |}.

Definition add_days (n : nat) (t : Timestamp) : Timestamp :=
  Nat.iter n next_day t.

(** The [months] list: twelve dates thirty days apart, formatted. *)
Definition generated_months : list string :=
  map (λ i, strftime_Ym (add_days (30 * i) (mkTimestamp 2024 1 1))) (seq 0 12).

(** The amounts of one month, before they are rounded. *)
Record Amounts : Type := mkAmounts {
  a_income : Q;
  a_rent : Q;
  a_utilities : Q;
  a_insurance : Q;
  a_loan_payments : Q;
  a_groceries : Q;
  a_transportation : Q;
  a_entertainment : Q;
  a_healthcare : Q;
  a_shopping : Q;
  a_dining_out : Q;
  a_subscriptions : Q;
  a_savings : Q;
  a_investments : Q;
  a_total_expenses : Q;
  a_net_income : Q
}.

Section Generator.

(** [normal k scale] is what the [k]-th call of [np.random.normal] of the
    run returns, a call with mean 0 and standard deviation [scale]. *)
Variable normal : nat → Q → Q.

(** The body of the loop over [months], for the [i]-th month. *)
Definition month_amounts (i : nat) : Amounts :=
  let k := (10 * i)%nat in
  let base_income := 85000 in
  let income := py_max 80000 (base_income + normal k 3000) in
  let rent := 25000 in
  let utilities := py_max 4000 (5000 + normal (k + 1) 300) in
  let insurance := 3000 in
  let loan_payments := 8000 in
  let groceries := py_max 10000 (12000 + normal (k + 2) 1000) in
  let transportation := py_max 3000 (4000 + normal (k + 3) 300) in
  let entertainment := py_max 5000 (6000 + normal (k + 4) 800) in
  let healthcare := py_max 1500 (2000 + normal (k + 5) 300) in
  let shopping := py_max 4000 (5000 + normal (k + 6) 600) in
  let dining_out := py_max 3000 (4000 + normal (k + 7) 500) in
  let subscriptions := 2000 in
  let total_expenses :=
    rent + utilities + insurance + loan_payments +
    groceries + transportation + entertainment +
    healthcare + shopping + dining_out + subscriptions in
  let max_allowed_expenses := income * (3 # 4) in
  let scale_factor :=
    if Qltb max_allowed_expenses total_expenses
    then Some (max_allowed_expenses / total_expenses) else None in
  let scaled x := match scale_factor with Some f => x * f | None => x end in
  let rent := scaled rent in
  let utilities := scaled utilities in
  let groceries := scaled groceries in
  let transportation := scaled transportation in
  let entertainment := scaled entertainment in
  let healthcare := scaled healthcare in
  let shopping := scaled shopping in
  let dining_out := scaled dining_out in
  let total_expenses :=
    rent + utilities + insurance + loan_payments +
    groceries + transportation + entertainment +
    healthcare + shopping + dining_out + subscriptions in
  let net_income := income - total_expenses in
  let savings := py_max 5000 (net_income * (3 # 10) + normal (k + 8) 1000) in
  let investments := py_max 2000 (savings * (3 # 5) + normal (k + 9) 500) in
  {| a_income := income; a_rent := rent; a_utilities := utilities;
     a_insurance := insurance; a_loan_payments := loan_payments;
     a_groceries := groceries; a_transportation := transportation;
     a_entertainment := entertainment; a_healthcare := healthcare;
     a_shopping := shopping; a_dining_out := dining_out;
     a_subscriptions := subscriptions; a_savings := savings;
     a_investments := investments; a_total_expenses := total_expenses;
     a_net_income := net_income |}.

(** One column of the frame: a field of every month, rounded. *)
Definition rounded_column (field : Amounts → Q) : list Q :=
  map (λ i, round2 (field (month_amounts i))) (seq 0 12).

(** [generate_synthetic_financial_data]. *)
Definition generate_synthetic_financial_data : DataFrame :=
  frame generated_months
    [("Income", rounded_column a_income);
     ("Rent", rounded_column a_rent);
     ("Utilities", rounded_column a_utilities);
     ("Insurance", rounded_column a_insurance);
     ("Loan_Payments", rounded_column a_loan_payments);
     ("Groceries", rounded_column a_groceries);
     ("Transportation", rounded_column a_transportation);
     ("Entertainment", rounded_column a_entertainment);
     ("Healthcare", rounded_column a_healthcare);
     ("Shopping", rounded_column a_shopping);
     ("Dining_Out", rounded_column a_dining_out);
     ("Subscriptions", rounded_column a_subscriptions);
     ("Savings", rounded_column a_savings);
     ("Investments", rounded_column a_investments);
     ("Total_Expenses", rounded_column a_total_expenses);
     ("Net_Income", rounded_column a_net_income)].

End Generator.

(** Draws that are all zero. *)
Definition no_noise (k : nat) (scale : Q) : Q := 0.

(** * Properties *)

(** ** Amounts, the error monad and column access *)

Lemma Qltb_lt x y : Qltb x y = true ↔ x < y.
Proof. unfold Qltb, Qlt. apply Z.ltb_lt. Qed.

Lemma Qltb_ge x y : Qltb x y = false ↔ y <= x.
Proof. unfold Qltb, Qle. apply Z.ltb_ge. Qed.

Lemma getitem_Ok df c s : getitem df c = Ok s ↔ df_columns df !! c = Some s.
Proof. unfold getitem. destruct (df_columns df !! c); split; congruence. Qed.

Lemma getitem_None df c :
  df_columns df !! c = None → getitem df c = Raise (KeyError [c]).
Proof. unfold getitem. by intros ->. Qed.

Lemma traverse_Ok {A B} (f : A → result B) l bs :
  traverse f l = Ok bs ↔ Forall2 (λ a b, f a = Ok b) l bs.
Proof.
  revert bs. induction l as [|a l IH]; intros bs; simpl.
  - split.
    + intros [= <-]. constructor.
    + by inversion 1.
  - split.
    + intros H. destruct (f a) eqn:Ea; simpl in H; [|done].
      destruct (traverse f l) eqn:El; simpl in H; [|done].
      injection H as <-. constructor; [done|]. by apply IH.
    + inversion 1 as [|? b ? bs' Hb Hbs]; subst. rewrite Hb. simpl.
      apply IH in Hbs. rewrite Hbs. done.
Qed.

Lemma missing_columns_nil df cols :
  missing_columns df cols = [] ↔ has_columns df cols.
Proof.
  unfold missing_columns, has_columns.
  induction cols as [|c cols IH]; [done|].
  rewrite filter_cons, Forall_cons.
  destruct (decide (df_columns df !! c = None)) as [Hn|Hn].
  - split; [done|]. intros [[s Hs] _]. congruence.
  - rewrite IH. split; [|by intros [_ ?]].
    intros H. split; [|done]. by apply not_eq_None_Some.
Qed.

Lemma getitems_Ok df cols l :
  getitems df cols = Ok l ↔
  Forall2 (λ c p, p.1 = c ∧ df_columns df !! c = Some p.2) cols l.
Proof.
  unfold getitems. split.
  - destruct (missing_columns df cols) eqn:E; [|done]. intros [= <-].
    apply missing_columns_nil in E. clear -E.
    induction E as [|c cols [s Hs] _ IH]; simpl; constructor; [|done].
    by rewrite Hs.
  - intros H.
    assert (has_columns df cols) as Hc.
    { clear -H. induction H as [|c p cols l [_ Hp] _ IH]; by constructor. }
    apply missing_columns_nil in Hc. rewrite Hc. f_equal. clear Hc.
    induction H as [|c [c' s] cols l [Hc Hs] _ IH]; simpl in *; [done|].
    by rewrite Hs, IH, Hc.
Qed.

Lemma getitems_total df cols :
  has_columns df cols → ∃ l, getitems df cols = Ok l.
Proof.
  intros H%missing_columns_nil. unfold getitems. rewrite H. eauto.
Qed.

Lemma getitems_labels df cols l : getitems df cols = Ok l → map fst l = cols.
Proof.
  rewrite getitems_Ok. induction 1 as [|c p cols l [Hc _] _ IH]; simpl; congruence.
Qed.

Lemma summary_inv df s :
  get_financial_summary df = Ok s →
  ∃ income expenses savings investments net cols largest,
    df_columns df !! "Income" = Some income ∧
    df_columns df !! "Total_Expenses" = Some expenses ∧
    df_columns df !! "Savings" = Some savings ∧
    df_columns df !! "Investments" = Some investments ∧
    df_columns df !! "Net_Income" = Some net ∧
    getitems df expense_columns = Ok cols ∧
    idxmax (frame_sum cols) = Ok largest ∧
    s = {| total_income := Series_sum income;
           total_expenses := Series_sum expenses;
           total_savings := Series_sum savings;
           total_investments := Series_sum investments;
           net_income := Series_sum income - Series_sum expenses;
           average_monthly_income := Series_mean income;
           average_monthly_expenses := Series_mean expenses;
           average_monthly_savings := Series_mean savings;
           savings_rate :=
             if Qltb 0 (Series_sum income - Series_sum expenses)
             then Series_sum savings / (Series_sum income - Series_sum expenses) * 100
             else 0;
           traditional_savings_rate :=
             if Qltb 0 (Series_sum income)
             then Series_sum savings / Series_sum income * 100 else 0;
           months_in_deficit := mask_sum (Series_lt net 0);
           largest_expense_category := largest |}.
Proof.
  unfold get_financial_summary. intros H.
  destruct (getitem df "Income") as [income|] eqn:E1; simpl in H; [|done].
  destruct (getitem df "Total_Expenses") as [expenses|] eqn:E2; simpl in H; [|done].
  destruct (getitem df "Savings") as [savings|] eqn:E3; simpl in H; [|done].
  destruct (getitem df "Investments") as [investments|] eqn:E4; simpl in H; [|done].
  destruct (getitem df "Net_Income") as [net|] eqn:E5; simpl in H; [|done].
  destruct (getitems df expense_columns) as [cols|] eqn:E6; simpl in H; [|done].
  destruct (idxmax (frame_sum cols)) as [largest|] eqn:E7; simpl in H; [|done].
  exists income, expenses, savings, investments, net, cols, largest.
  apply getitem_Ok in E1, E2, E3, E4, E5.
  repeat split; try done.
  injection H as <-. f_equal.
  by destruct (Qltb 0 (Series_sum income - Series_sum expenses)).
Qed.

Lemma summary_total df :
  has_columns df summary_columns → ∃ s, get_financial_summary df = Ok s.
Proof.
  intros H. unfold summary_columns in H.
  apply Forall_app in H as [H5 H11].
  destruct (getitems_total _ _ H11) as [cols Hcols].
  repeat (apply Forall_cons in H5 as [[? ?%getitem_Ok] H5]).
  pose proof (getitems_labels _ _ _ Hcols) as Hl.
  unfold get_financial_summary.
  repeat match goal with H : getitem _ _ = Ok _ |- _ => rewrite H; clear H; simpl end.
  rewrite Hcols. simpl.
  destruct cols as [|p cols]; [done|]. simpl. eauto.
Qed.

(** The totals of the summary are the sums of the columns they are named
    after. *)
Lemma Series_sum_acc (s : list Q) (a : Q) :
  fold_left Qplus s a == a + foldr Qplus 0 s.
Proof.
  revert a. induction s as [|v s IH]; intros a; simpl.
  - ring.
  - rewrite IH. ring.
Qed.

Lemma Series_sum_total (s : list Q) : Series_sum s == foldr Qplus 0 s.
Proof. unfold Series_sum. rewrite Series_sum_acc. ring. Qed.

(** ** The savings rates *)





(** ** Months in deficit *)

Lemma mask_sum_acc (s : list Q) (n : nat) :
  fold_left (λ n b, if b : bool then S n else n) (Series_lt s 0) n
  = (n + count_negative s)%nat.
Proof.
  unfold count_negative. revert n.
  induction s as [|v s IH]; intros n; simpl; [lia|].
  rewrite IH, filter_cons. destruct (decide (v < 0)) as [Hv|Hv].
  - apply Qltb_lt in Hv. rewrite Hv. simpl. lia.
  - destruct (Qltb v 0) eqn:E; [by apply Qltb_lt in E|done].
Qed.

Lemma mask_sum_count (s : list Q) :
  mask_sum (Series_lt s 0) = count_negative s.
Proof. unfold mask_sum. by rewrite mask_sum_acc. Qed.

Lemma count_negative_split (s neg rest : list Q) :
  s ≡ₚ neg ++ rest →
  Forall (λ v, v < 0) neg → Forall (λ v, 0 <= v) rest →
  count_negative s = length neg.
Proof.
  intros Hp Hneg Hrest. unfold count_negative.
  rewrite Hp, filter_app, length_app.
  assert (filter (λ v, v < 0) neg = neg) as ->.
  { clear Hp. induction Hneg as [|v l Hv _ IH]; [done|].
    by rewrite filter_cons_True, IH. }
  assert (filter (λ v, v < 0) rest = []) as ->; [|simpl; lia].
  clear Hp. induction Hrest as [|v l Hv _ IH]; [done|].
  rewrite filter_cons_False; [done|]. by apply Qle_not_lt.
Qed.

Lemma has_columns_summary df :
  has_columns df summary_columns ↔
  has_columns df input_columns ∧ is_Some (df_columns df !! "Net_Income").
Proof.
  unfold has_columns, summary_columns, input_columns.
  rewrite !Forall_app, !Forall_cons, Forall_nil. tauto.
Qed.

(** C4, as the code has it. For every dataset with the other columns of
    the summary: when the input [Net_Income] column is present, the summary
    exists and [months_in_deficit] is the number of its strictly negative
    values, so [k] for a column made of [k] negative and [n - k]
    non-negative values; when the column is absent the summary raises
    [KeyError('Net_Income')]. *)
Theorem months_in_deficit_counts_input_column (df : DataFrame) :
  has_columns df input_columns →
  match df_columns df !! "Net_Income" with
  | Some net =>
      ∃ s, get_financial_summary df = Ok s ∧
           months_in_deficit s = count_negative net ∧
           ∀ neg rest, net ≡ₚ neg ++ rest →
             Forall (λ v, v < 0) neg → Forall (λ v, 0 <= v) rest →
             months_in_deficit s = length neg
  | None => get_financial_summary df = Raise (KeyError ["Net_Income"])
  end.
Proof.
  intros Hcols. destruct (df_columns df !! "Net_Income") as [net|] eqn:Hn.
  - assert (has_columns df summary_columns) as Hall
      by (apply has_columns_summary; eauto).
    destruct (summary_total df Hall) as [s Hs].
    destruct (summary_inv df s Hs)
      as (income & expenses & savings & investments & net' & cols & largest
          & _ & _ & _ & _ & Hn' & _ & _ & ->).
    assert (net' = net) as -> by congruence.
    eexists. split; [exact Hs|]. simpl. rewrite mask_sum_count.
    split; [done|]. intros neg rest. apply count_negative_split.
  - unfold input_columns in Hcols. apply Forall_app in Hcols as [H4 _].
    repeat (apply Forall_cons in H4 as [[? ?%getitem_Ok] H4]).
    unfold get_financial_summary.
    repeat match goal with
           | H : getitem _ _ = Ok _ |- _ => rewrite H; clear H; simpl
           end.
    by rewrite (getitem_None _ _ Hn).
Qed.

Lemma months_in_deficit_counts_input_column_witness :
  has_columns three_months input_columns ∧
  match df_columns three_months !! "Net_Income" with
  | Some net =>
      ∃ s, get_financial_summary three_months = Ok s ∧
           months_in_deficit s = count_negative net ∧
           ∀ neg rest, net ≡ₚ neg ++ rest →
             Forall (λ v, v < 0) neg → Forall (λ v, 0 <= v) rest →
             months_in_deficit s = length neg
  | None => get_financial_summary three_months = Raise (KeyError ["Net_Income"])
  end.
Proof.
  split; [|apply (months_in_deficit_counts_input_column three_months)];
    repeat constructor; by vm_compute; eexists.
Defined.

(** C4, as stated, fails: without a [Net_Income] column there is no
    fallback to the per-row recompute, the summary raises. *)
Lemma months_in_deficit_no_fallback :
  net_income_or_recompute without_net_income = Ok [-200; 200; 200] ∧
  get_financial_summary without_net_income = Raise (KeyError ["Net_Income"]) ∧
  ¬ deficit_count_with_fallback without_net_income.
Proof.
  assert (get_financial_summary without_net_income
          = Raise (KeyError ["Net_Income"])) as H by (by vm_compute).
  split; [by vm_compute|]. split; [done|].
  intros (s & net & Hs & _). rewrite H in Hs. discriminate.
Qed.

(** ** The chart builders *)

Lemma lookup_map {A B} (f : A → B) (l : list A) (i : nat) :
  map f l !! i = f <$> l !! i.
Proof. revert i. induction l as [|a l IH]; intros [|i]; simpl; auto. Qed.




(** What [get_net_income_trend] builds on an analyzer's frame. *)
Lemma net_income_trend_Ok
    (df : DataFrame) (months : list Timestamp) (net : list Q) :
  df_month df = Some (MonthDates months) →
  df_columns df !! "Net_Income" = Some net →
  get_net_income_trend df =
  Ok {| fig_data :=
          [Scatter "Net Income" (map strftime_Ym months) net
             "lines+markers" "#32CD32" 3 (Some "tonexty")];
        fig_hlines :=
          [{| hline_y := 0; hline_dash := "dash"; hline_color := "red";
              hline_annotation := "Break-even Line" |}];
        fig_layout := {| title := "Monthly Net Income Trend";
                         xaxis_title := Some "Month";
                         yaxis_title := Some amount_axis;
                         barmode := None;
                         template := "plotly_white" |} |}.
Proof.
  intros Hm Hn. unfold get_net_income_trend, getitem_month.
  rewrite Hm. simpl. apply getitem_Ok in Hn. by rewrite Hn.
Qed.

(** C2, as the code has it. On an analyzer's frame with a [Net_Income]
    column, the chart has exactly one data trace, a line whose y-values are
    the values of the input [Net_Income] column in row order and whose
    x-values are the formatted periods; the break-even reference at zero is
    a horizontal line of the layout, not a data trace. *)
Theorem net_income_trend_reads_input_column
    (df : DataFrame) (months : list Timestamp) (net : list Q) :
  df_month df = Some (MonthDates months) →
  df_columns df !! "Net_Income" = Some net →
  ∃ fig t h, get_net_income_trend df = Ok fig ∧
             fig_data fig = [t] ∧
             trace_x t = map strftime_Ym months ∧
             trace_y t = net ∧
             fig_hlines fig = [h] ∧ hline_y h = 0.
Proof.
  intros Hm Hn. rewrite (net_income_trend_Ok df months net Hm Hn).
  by do 3 eexists.
Qed.

Lemma net_income_trend_reads_input_column_witness :
  df_month three_months = Some (MonthDates [ym 2024 1; ym 2024 2; ym 2024 3]) ∧
  df_columns three_months !! "Net_Income" = Some [-200; 200; 200] ∧
  ∃ fig t h, get_net_income_trend three_months = Ok fig ∧
             fig_data fig = [t] ∧
             trace_x t = map strftime_Ym [ym 2024 1; ym 2024 2; ym 2024 3] ∧
             trace_y t = [-200; 200; 200] ∧
             fig_hlines fig = [h] ∧ hline_y h = 0.
Proof.
  split; [reflexivity|]. split; [by vm_compute|].
  apply (net_income_trend_reads_input_column three_months
           [ym 2024 1; ym 2024 2; ym 2024 3] [-200; 200; 200]);
    [reflexivity|by vm_compute].
Defined.

(** C2, as stated, fails: where the input [Net_Income] column differs from
    [Income - Total_Expenses], the trace shows the input column. *)
Lemma net_income_trend_not_recomputed :
  recomputed_net_income inconsistent_net = Ok [-200; 200; 200] ∧
  (∃ fig t, get_net_income_trend inconsistent_net = Ok fig ∧
            fig_data fig = [t] ∧ trace_y t = [50; 50; 50]) ∧
  ¬ net_income_trend_recomputes inconsistent_net.
Proof.
  split; [by vm_compute|]. split; [by do 2 eexists; vm_compute|].
  intros (fig & t & r & Hfig & Ht & Hr & Hy).
  vm_compute in Hfig, Hr. injection Hfig as <-. injection Hr as <-.
  simpl in Ht. injection Ht as <-. simpl in Hy.
  apply Forall2_cons in Hy as [Hy _]. by vm_compute in Hy.
Qed.

(** C10. For every analyzer's frame whose [Net_Income] column is [net]
    and which has the other columns of the summary, the net-income chart
    and the summary both exist, the y-values of the chart's trace are
    [net], [months_in_deficit] is the number of strictly negative values of
    [net], and so the number of strictly negative y-values is
    [months_in_deficit]: both read the input [Net_Income] column. *)
Theorem deficit_months_agree_with_trend
    (df : DataFrame) (months : list Timestamp) (net : list Q) :
  has_columns df input_columns →
  df_month df = Some (MonthDates months) →
  df_columns df !! "Net_Income" = Some net →
  ∃ fig t s, get_net_income_trend df = Ok fig ∧ fig_data fig = [t] ∧
             get_financial_summary df = Ok s ∧
             trace_y t = net ∧
             months_in_deficit s = count_negative net ∧
             count_negative (trace_y t) = months_in_deficit s.
Proof.
  intros Hcols Hm Hnet.
  assert (has_columns df summary_columns) as Hall
    by (apply has_columns_summary; eauto).
  destruct (summary_total df Hall) as [s Hs].
  destruct (summary_inv df s Hs)
    as (income & expenses & savings & investments & net' & cols & largest
        & _ & _ & _ & _ & Hn & _ & _ & ->).
  assert (net' = net) as -> by congruence.
  rewrite (net_income_trend_Ok df months net Hm Hn).
  do 3 eexists. repeat split; [done..| |]; simpl; by rewrite mask_sum_count.
Qed.

Lemma deficit_months_agree_with_trend_witness :
  has_columns three_months input_columns ∧
  df_month three_months = Some (MonthDates [ym 2024 1; ym 2024 2; ym 2024 3]) ∧
  df_columns three_months !! "Net_Income" = Some [-200; 200; 200] ∧
  ∃ fig t s, get_net_income_trend three_months = Ok fig ∧ fig_data fig = [t] ∧
             get_financial_summary three_months = Ok s ∧
             trace_y t = [-200; 200; 200] ∧
             months_in_deficit s = count_negative [-200; 200; 200] ∧
             count_negative (trace_y t) = months_in_deficit s.
Proof.
  split; [repeat constructor; by vm_compute; eexists|].
  split; [reflexivity|]. split; [by vm_compute|].
  apply (deficit_months_agree_with_trend three_months
           [ym 2024 1; ym 2024 2; ym 2024 3] [-200; 200; 200]);
    [repeat constructor; by vm_compute; eexists|reflexivity|by vm_compute].
Defined.



(** ** The largest expense category *)





(** [Utilities] and [Shopping] tie in [tied_month]; [Utilities] comes
    first. *)
Example tied_month_largest :
  ∃ s, get_financial_summary tied_month = Ok s ∧
       largest_expense_category s = "Utilities".
Proof. eexists. split; by vm_compute. Qed.

(** ** The order of the x-axis *)

Lemma digit_compare (m n : nat) :
  Ascii.compare (digit m) (digit n) = Nat.compare (m mod 10) (n mod 10).
Proof.
  unfold digit.
  pose proof (Nat.mod_upper_bound m 10 ltac:(lia)) as Hm.
  pose proof (Nat.mod_upper_bound n 10 ltac:(lia)) as Hn.
  generalize dependent (m mod 10). generalize dependent (n mod 10).
  intros b Hb a Ha.
  do 10 (destruct a as [|a]; [do 10 (destruct b as [|b]; [reflexivity|]); lia|]).
  lia.
Qed.

Lemma four_digits (y : nat) :
  (y < 100 * 100)%nat →
  ∃ d3 d2 d1 d0 : nat,
    ((y / 1000) mod 10 = d3 ∧ (y / 100) mod 10 = d2 ∧
     (y / 10) mod 10 = d1 ∧ y mod 10 = d0 ∧
     d3 < 10 ∧ d2 < 10 ∧ d1 < 10 ∧ d0 < 10 ∧
     y = 1000 * d3 + 100 * d2 + 10 * d1 + d0)%nat.
Proof.
  intros Hy.
  replace (y / 1000)%nat with (y / 10 / 10 / 10)%nat
    by (by rewrite !Nat.Div0.div_div).
  replace (y / 100)%nat with (y / 10 / 10)%nat
    by (by rewrite !Nat.Div0.div_div).
  pose proof (Nat.div_mod_eq y 10) as E0.
  pose proof (Nat.div_mod_eq (y / 10) 10) as E1.
  pose proof (Nat.div_mod_eq (y / 10 / 10) 10) as E2.
  pose proof (Nat.div_mod_eq (y / 10 / 10 / 10) 10) as E3.
  pose proof (Nat.mod_upper_bound y 10 ltac:(lia)).
  pose proof (Nat.mod_upper_bound (y / 10) 10 ltac:(lia)).
  pose proof (Nat.mod_upper_bound (y / 10 / 10) 10 ltac:(lia)).
  pose proof (Nat.mod_upper_bound (y / 10 / 10 / 10) 10 ltac:(lia)).
  do 4 eexists. repeat split; try eassumption. lia.
Qed.

Lemma two_digits (m : nat) :
  (m < 100)%nat →
  ∃ d1 d0 : nat,
    ((m / 10) mod 10 = d1 ∧ m mod 10 = d0 ∧ d1 < 10 ∧ d0 < 10 ∧
     m = 10 * d1 + d0)%nat.
Proof.
  intros Hm.
  pose proof (Nat.div_mod_eq m 10) as E0.
  pose proof (Nat.div_mod_eq (m / 10) 10) as E1.
  pose proof (Nat.mod_upper_bound m 10 ltac:(lia)).
  pose proof (Nat.mod_upper_bound (m / 10) 10 ltac:(lia)).
  do 2 eexists. repeat split; try eassumption. lia.
Qed.

Lemma strftime_Ym_leb (a b : Timestamp) :
  four_digit_year a → four_digit_year b →
  String.leb (strftime_Ym a) (strftime_Ym b) = period_leb a b.
Proof.
  intros [Hya Hma] [Hyb Hmb]. unfold String.leb, strftime_Ym, period_leb.
  destruct a as [ya ma da], b as [yb mb db].
  cbn [ts_year ts_month] in *. cbn [String.compare].
  rewrite !digit_compare.
  assert (Ascii.compare "-" "-" = Eq) as -> by reflexivity.
  destruct (four_digits ya Hya)
    as (a3 & a2 & a1 & a0 & -> & -> & -> & -> & ? & ? & ? & ? & Ea).
  destruct (four_digits yb Hyb)
    as (b3 & b2 & b1 & b0 & -> & -> & -> & -> & ? & ? & ? & ? & Eb).
  destruct (two_digits ma Hma) as (c1 & c0 & -> & -> & ? & ? & Ec).
  destruct (two_digits mb Hmb) as (e1 & e0 & -> & -> & ? & ? & Ee).
  clear Hya Hyb Hma Hmb.
  destruct (Nat.compare_spec a3 b3); [|period_leb_cases..].
  destruct (Nat.compare_spec a2 b2); [|period_leb_cases..].
  destruct (Nat.compare_spec a1 b1); [|period_leb_cases..].
  destruct (Nat.compare_spec a0 b0); [|period_leb_cases..].
  destruct (Nat.compare_spec c1 e1); [|period_leb_cases..].
  destruct (Nat.compare_spec c0 e0); period_leb_cases.
Qed.

Lemma nondecreasing_strftime (months : list Timestamp) :
  Forall four_digit_year months →
  nondecreasing String.leb (map strftime_Ym months)
  = nondecreasing period_leb months.
Proof.
  induction 1 as [|a l Ha Hl IH]; [done|].
  destruct Hl as [|b l Hb Hl]; [done|].
  change (String.leb (strftime_Ym a) (strftime_Ym b)
          && nondecreasing String.leb (map strftime_Ym (b :: l))
          = period_leb a b && nondecreasing period_leb (b :: l)).
  by rewrite IH, strftime_Ym_leb.
Qed.

(** C3, as the code has it. On an analyzer's frame with an [Income]
    column, the income chart is one line trace whose x-values are the
    formatted periods of the rows and whose y-values are their incomes,
    both in input row order; the x-values are therefore non-decreasing
    exactly when the rows are given in chronological order. *)
Theorem income_trend_keeps_row_order
    (df : DataFrame) (months : list Timestamp) (income : list Q) :
  df_month df = Some (MonthDates months) →
  df_columns df !! "Income" = Some income →
  ∃ fig t, get_income_trend df = Ok fig ∧
           fig_data fig = [t] ∧
           trace_x t = map strftime_Ym months ∧
           trace_y t = income ∧
           (Forall four_digit_year months →
            nondecreasing String.leb (trace_x t)
            = nondecreasing period_leb months).
Proof.
  intros Hm Hi. unfold get_income_trend, getitem_month.
  rewrite Hm. simpl. apply getitem_Ok in Hi. rewrite Hi. simpl.
  do 2 eexists. repeat split; try done.
  simpl. apply nondecreasing_strftime.
Qed.

Lemma income_trend_keeps_row_order_witness :
  df_month three_months = Some (MonthDates [ym 2024 1; ym 2024 2; ym 2024 3]) ∧
  df_columns three_months !! "Income" = Some [1000; 1000; 1000] ∧
  ∃ fig t, get_income_trend three_months = Ok fig ∧
           fig_data fig = [t] ∧
           trace_x t = map strftime_Ym [ym 2024 1; ym 2024 2; ym 2024 3] ∧
           trace_y t = [1000; 1000; 1000] ∧
           (Forall four_digit_year [ym 2024 1; ym 2024 2; ym 2024 3] →
            nondecreasing String.leb (trace_x t)
            = nondecreasing period_leb [ym 2024 1; ym 2024 2; ym 2024 3]).
Proof.
  split; [reflexivity|]. split; [by vm_compute|].
  apply (income_trend_keeps_row_order three_months
           [ym 2024 1; ym 2024 2; ym 2024 3] [1000; 1000; 1000]);
    [reflexivity|by vm_compute].
Defined.

(** C3, as stated, fails: rows uploaded with March first are charted with
    March first. *)
Lemma income_trend_not_sorted :
  ∃ df fig t,
    FinancialAnalyzer_init year_month_to_datetime march_first = Ok df ∧
    get_income_trend df = Ok fig ∧
    fig_data fig = [t] ∧
    trace_x t = ["2024-03"; "2024-01"; "2024-02"] ∧
    nondecreasing String.leb (trace_x t) = false.
Proof. do 3 eexists. repeat split; by vm_compute. Qed.

(** ** Failures *)

Lemma getitem_Raise df c e :
  getitem df c = Raise e → df_columns df !! c = None ∧ e = KeyError [c].
Proof. unfold getitem. destruct (df_columns df !! c); by intros [= <-]. Qed.

Lemma getitems_Raise df cols e :
  getitems df cols = Raise e →
  ∃ c, c ∈ cols ∧ df_columns df !! c = None ∧
       e = KeyError (missing_columns df cols).
Proof.
  unfold getitems. destruct (missing_columns df cols) as [|c l] eqn:E; [done|].
  intros [= <-]. exists c.
  assert (c ∈ missing_columns df cols) as Hc by (rewrite E; left).
  by apply list_elem_of_filter in Hc as [Hn Hc].
Qed.

(** The summary fails only where a column it reads is absent, and then
    with a [KeyError]. *)
Lemma summary_Raise (df : DataFrame) (e : exn) :
  get_financial_summary df = Raise e →
  ∃ c missing, c ∈ summary_columns ∧ df_columns df !! c = None ∧
               e = KeyError missing.
Proof.
  unfold get_financial_summary. intros H.
  repeat match type of H with
         | (getitem df ?c ≫= _) = Raise _ =>
             let E := fresh "E" in
             destruct (getitem df c) eqn:E; simpl in H;
             [|injection H as ->; apply getitem_Raise in E as [E ->];
               exists c; eexists; split; [set_solver|done]]
         end.
  destruct (getitems df expense_columns) as [cols|] eqn:Eg; simpl in H.
  - apply getitems_labels in Eg.
    destruct cols as [|p cols]; [done|]. by simpl in H.
  - injection H as ->. apply getitems_Raise in Eg as (c & Hc & Hn & ->).
    exists c. eexists. split; [|done]. unfold summary_columns.
    apply elem_of_app. by right.
Qed.

(** C8, as the code has it. On a dataset that has every column the
    summary reads and no row, the summary does not fail: it returns zero
    totals, zero net income, zero rates, no month in deficit, undefined
    (NaN) averages and the first category, [Rent], as the largest. *)
Theorem summary_of_empty_dataset (df : DataFrame) :
  Forall (λ c, df_columns df !! c = Some []) summary_columns →
  get_financial_summary df = Ok empty_summary.
Proof.
  intros H. unfold summary_columns in H. apply Forall_app in H as [H5 H11].
  assert (getitems df expense_columns
          = Ok (map (λ c, (c, [])) expense_columns)) as Hcols.
  { apply getitems_Ok. clear H5.
    induction H11 as [|c l Hc _ IH]; simpl; by constructor. }
  repeat (apply Forall_cons in H5 as [?%getitem_Ok H5]).
  unfold get_financial_summary.
  repeat match goal with
         | H : getitem _ _ = Ok _ |- _ => rewrite H; clear H; simpl
         end.
  by rewrite Hcols.
Qed.

Lemma summary_of_empty_dataset_witness :
  Forall (λ c, df_columns no_rows !! c = Some []) summary_columns ∧
  get_financial_summary no_rows = Ok empty_summary.
Proof.
  split; [|apply (summary_of_empty_dataset no_rows)];
    repeat constructor; by vm_compute.
Defined.

(** C8, as stated, fails: the summary of a dataset without rows is a
    defaulted result, not a failure. *)
Lemma empty_dataset_not_rejected :
  df_rows no_rows = 0%nat ∧
  get_financial_summary no_rows = Ok empty_summary ∧
  ¬ ∃ e, get_financial_summary no_rows = Raise e.
Proof.
  assert (get_financial_summary no_rows = Ok empty_summary) as H
    by (by vm_compute).
  split; [done|]. split; [done|].
  intros [e He]. rewrite H in He. discriminate.
Qed.

(** Without a dataset, [analyze_data] answers with an error. *)
Lemma analyze_without_dataset to_datetime (st : AppState) :
  current_data st = None →
  analyze_data to_datetime st =
  (st, (JError "No data available. Please upload a CSV file first." None, 400%nat)).
Proof. unfold analyze_data. by intros ->. Qed.

(** ** Loading *)

(** With [year_month_to_datetime], one unparseable cell rejects the whole
    column. *)
Lemma year_month_rejects_column (cells : list string) (s : string) :
  s ∈ cells → parse_year_month s = None →
  ∃ e, year_month_to_datetime cells = Raise e.
Proof.
  intros Hs Hnone. unfold year_month_to_datetime.
  match goal with |- ∃ e, ?m = Raise e => destruct m as [ts|e] eqn:E end;
    [|by exists e].
  apply traverse_Ok in E. apply list_elem_of_lookup in Hs as [i Hi].
  destruct (Forall2_lookup_l _ _ _ _ _ E Hi) as (t & _ & Ht).
  by rewrite Hnone in Ht.
Qed.

(** C9, as the code has it. An upload within the size limit of a file
    named [*.csv] that the disk takes and [read_csv] accepts is stored in
    the upload folder, replaces the current dataset with the table as read,
    periods unparsed, and is answered with a success; the periods are
    parsed when the dataset is analyzed, and a [Month] column [to_datetime]
    rejects then fails the analysis as a whole: the answer is an error and
    the stored dataset is left as it was. *)
Theorem unparseable_period_fails_the_analysis
    (read_csv : string → result DataFrame)
    (secure_filename : string → string)
    (to_datetime : list string → result (list Timestamp))
    (st : AppState) (req : UploadRequest) (file : FileStorage) (df : DataFrame)
    (cells : list string) (e : exn) :
  (content_length req <= MAX_CONTENT_LENGTH)%N →
  file_part req = Some file →
  disk req = Saved →
  filename file ≠ "" →
  endswith (filename file) ".csv" = true →
  read_csv (stream file) = Ok df →
  df_month df = Some (MonthText cells) →
  to_datetime cells = Raise e →
  let st' :=
    {| current_data := Some df;
       files := <[normpath (os_path_join UPLOAD_FOLDER
                              (secure_filename (filename file)))
                  := stream file]> (files st) |} in
  upload_file read_csv secure_filename req st
  = (st', (JMessage "File uploaded successfully" (df_rows df), 200%nat)) ∧
  analyze_data to_datetime st'
  = (st', (JError "Error analyzing data: " (Some e), 500%nat)).
Proof.
  intros Hlen Hfile Hdisk Hname Hcsv Hread Hm Hparse. split.
  - unfold upload_file. apply String.eqb_neq in Hname.
    apply N.ltb_ge in Hlen.
    by rewrite Hlen, Hfile, Hname, Hcsv, Hdisk, Hread.
  - unfold analyze_data, FinancialAnalyzer_init, getitem_month. simpl.
    rewrite Hm. simpl. by rewrite Hparse.
Qed.

Lemma unparseable_period_fails_the_analysis_witness :
  (content_length (upload_of bad_period_file) <= MAX_CONTENT_LENGTH)%N ∧
  file_part (upload_of bad_period_file) = Some bad_period_file ∧
  disk (upload_of bad_period_file) = Saved ∧
  filename bad_period_file ≠ "" ∧
  endswith (filename bad_period_file) ".csv" = true ∧
  read_budget_csv (stream bad_period_file) = Ok bad_period_frame ∧
  df_month bad_period_frame = Some (MonthText ["2024-01"; "soon"]) ∧
  year_month_to_datetime ["2024-01"; "soon"]
  = Raise (ValueError "Unknown datetime string format, unable to parse: soon") ∧
  let st' :=
    {| current_data := Some bad_period_frame;
       files := <[normpath (os_path_join UPLOAD_FOLDER
                              (filename bad_period_file))
                  := stream bad_period_file]> (files no_session) |} in
  upload_file read_budget_csv (λ name, name) (upload_of bad_period_file)
    no_session
  = (st', (JMessage "File uploaded successfully" (df_rows bad_period_frame),
           200%nat)) ∧
  analyze_data year_month_to_datetime st'
  = (st', (JError "Error analyzing data: "
             (Some (ValueError
                      "Unknown datetime string format, unable to parse: soon")),
           500%nat)).
Proof.
  split; [by vm_compute|]. split; [reflexivity|]. split; [reflexivity|].
  split; [done|]. split; [by vm_compute|]. split; [by vm_compute|].
  split; [reflexivity|]. split; [by vm_compute|].
  apply (unparseable_period_fails_the_analysis
           read_budget_csv (λ name, name) year_month_to_datetime
           no_session (upload_of bad_period_file) bad_period_file
           bad_period_frame ["2024-01"; "soon"]);
    [by vm_compute|reflexivity|reflexivity|done|by vm_compute|by vm_compute
    |reflexivity|by vm_compute].
Defined.

(** C9, as stated, fails: a table with an unparseable period is loaded, the
    upload succeeds, and the upload leaves a file behind and replaces the
    current dataset. *)
Lemma upload_accepts_unparseable_period :
  year_month_to_datetime ["2024-01"; "soon"]
  = Raise (ValueError "Unknown datetime string format, unable to parse: soon") ∧
  ∃ st', upload_file read_budget_csv (λ name, name)
           (upload_of bad_period_file) no_session
         = (st', (JMessage "File uploaded successfully" 2, 200%nat)) ∧
         current_data st' = Some bad_period_frame ∧
         files no_session !! "uploads/budget.csv" = None ∧
         files st' !! "uploads/budget.csv" = Some (stream bad_period_file).
Proof. split; [by vm_compute|]. eexists. repeat split; by vm_compute. Qed.

(** ** Scenarios *)

(** Incomes of 1000, expenses of 1200, 800 and 800, savings of 100. *)
Example scenario_surplus :
  ∃ s, get_financial_summary three_months = Ok s ∧
       total_income s == 3000 ∧ total_expenses s == 2800 ∧
       net_income s == 200 ∧ months_in_deficit s = 1%nat ∧
       savings_rate s == 50.
Proof. eexists. split; [by vm_compute|]. repeat split; by vm_compute. Qed.

(** The same incomes with expenses of 1200 each month. *)
Example scenario_deficit :
  ∃ s, get_financial_summary all_deficit = Ok s ∧
       net_income s == -600 ∧ months_in_deficit s = 3%nat ∧
       savings_rate s = 0.
Proof. eexists. split; [by vm_compute|]. repeat split; by vm_compute. Qed.

(** A whole session: the rows are uploaded March first, the analysis
    succeeds, and the stored dataset has its periods parsed afterwards. *)
Example session_parses_in_place :
  let st := {| current_data := Some march_first; files := ∅ |} in
  ∃ st' analysis,
    analyze_data year_month_to_datetime st = (st', (JAnalysis analysis, 200%nat)) ∧
    (df_month <$> current_data st')
    = Some (Some (MonthDates [ym 2024 3; ym 2024 1; ym 2024 2])) ∧
    analyze_data year_month_to_datetime st' = (st', (JAnalysis analysis, 200%nat)).
Proof. do 2 eexists. repeat split; by vm_compute. Qed.

(** * Further properties *)

(** ** Uploads *)




(** X3. When [read_csv] raises on an uploaded CSV file that was within the
    size limit and that the disk took, the answer is 400 with that
    exception, the previous dataset stays the current one, and the file
    stays in the upload folder all the same. *)
Theorem upload_failed_read_keeps_dataset
    (read_csv : string → result DataFrame) (secure_filename : string → string)
    (req : UploadRequest) (f : FileStorage) (st : AppState) (e : exn) :
  (content_length req <= MAX_CONTENT_LENGTH)%N →
  file_part req = Some f →
  disk req = Saved →
  filename f ≠ "" →
  endswith (filename f) ".csv" = true →
  read_csv (stream f) = Raise e →
  upload_file read_csv secure_filename req st
  = ({| current_data := current_data st;
        files := <[normpath (os_path_join UPLOAD_FOLDER
                               (secure_filename (filename f)))
                   := stream f]> (files st) |},
     (JError "Error reading CSV file: " (Some e), 400%nat)).
Proof.
  intros Hlen%N.ltb_ge Hfile Hdisk Hname%String.eqb_neq Hcsv Hread.
  unfold upload_file. by rewrite Hlen, Hfile, Hname, Hcsv, Hdisk, Hread.
Qed.

Lemma upload_failed_read_keeps_dataset_witness :
  (content_length (upload_of empty_csv_file) <= MAX_CONTENT_LENGTH)%N ∧
  file_part (upload_of empty_csv_file) = Some empty_csv_file ∧
  disk (upload_of empty_csv_file) = Saved ∧
  filename empty_csv_file ≠ "" ∧
  endswith (filename empty_csv_file) ".csv" = true ∧
  read_budget_csv (stream empty_csv_file)
  = Raise (ValueError "No columns to parse from file") ∧
  upload_file read_budget_csv (λ name, name) (upload_of empty_csv_file)
    march_session
  = ({| current_data := current_data march_session;
        files := <[normpath (os_path_join UPLOAD_FOLDER
                               (filename empty_csv_file))
                   := stream empty_csv_file]> (files march_session) |},
     (JError "Error reading CSV file: "
        (Some (ValueError "No columns to parse from file")), 400%nat)).
Proof.
  split; [by vm_compute|]. split; [reflexivity|]. split; [reflexivity|].
  split; [done|]. split; [by vm_compute|]. split; [by vm_compute|].
  apply (upload_failed_read_keeps_dataset read_budget_csv (λ name, name)
           (upload_of empty_csv_file) empty_csv_file march_session);
    [by vm_compute|reflexivity|reflexivity|done|by vm_compute|by vm_compute].
Defined.

(** ** Analysis *)

(** Building an analyzer on its own frame changes nothing, and leaves the
    numeric columns of the frame it was first given. *)
Lemma init_fixpoint to_datetime df self_df :
  FinancialAnalyzer_init to_datetime df = Ok self_df →
  FinancialAnalyzer_init to_datetime self_df = Ok self_df ∧
  (∃ months, df_month self_df = Some (MonthDates months)) ∧
  df_columns self_df = df_columns df ∧ df_rows self_df = df_rows df.
Proof.
  unfold FinancialAnalyzer_init, getitem_month.
  destruct (df_month df) as [[cells|months]|]; simpl; [| |done].
  - destruct (to_datetime cells) as [ts|]; simpl; [|done].
    intros [= <-]. simpl. eauto.
  - intros [= <-]. simpl. eauto.
Qed.

(** X4. Analyzing twice is analyzing once: a second [analyze_data] right
    after the first gives the same answer and the same state, although the
    first one has replaced the [Month] column of the stored dataset. *)
Theorem analyze_data_idempotent
    (to_datetime : list string → result (list Timestamp)) (st : AppState) :
  analyze_data to_datetime (analyze_data to_datetime st).1
  = analyze_data to_datetime st.
Proof.
  unfold analyze_data at 2 3.
  destruct (current_data st) as [df|] eqn:Hdata; simpl.
  2: { unfold analyze_data. by rewrite Hdata. }
  destruct (FinancialAnalyzer_init to_datetime df) as [self_df|e] eqn:Hinit.
  2: { simpl. unfold analyze_data. by rewrite Hdata, Hinit. }
  destruct (init_fixpoint _ _ _ Hinit) as (Hagain & _).
  destruct (analysis_of self_df) eqn:Ha; simpl;
    unfold analyze_data; simpl; by rewrite Hagain, Ha.
Qed.

(** ** Charts over the period axis *)

Lemma monthly_traces_Ok df months cols :
  df_month df = Some (MonthDates months) →
  has_columns df cols →
  traverse (λ col,
      m ← getitem_month df;
      x_values ← dt_strftime_Ym m;
      y_values ← getitem df col;
      mret (Bar col x_values y_values)) cols
  = Ok (map (bar_of df months) cols).
Proof.
  intros Hm. induction 1 as [|c cols [s Hs] _ IH]; [done|].
  cbn [traverse map]. rewrite IH.
  unfold getitem_month, getitem, bar_of. rewrite Hm, Hs. done.
Qed.

Lemma monthly_expenses_Ok df months :
  df_month df = Some (MonthDates months) →
  has_columns df expense_columns →
  ∃ fig, get_monthly_expenses df = Ok fig ∧
         fig_data fig = map (bar_of df months) expense_columns ∧
         barmode (fig_layout fig) = Some "stack" ∧ fig_hlines fig = [].
Proof.
  intros Hm Hc. unfold get_monthly_expenses.
  rewrite (monthly_traces_Ok df months _ Hm Hc). simpl. by eexists.
Qed.

Lemma income_trend_Ok df months income :
  df_month df = Some (MonthDates months) →
  df_columns df !! "Income" = Some income →
  ∃ fig, get_income_trend df = Ok fig ∧
         fig_data fig = [Scatter "Income" (map strftime_Ym months) income
                           "lines+markers" "#2E8B57" 3 None].
Proof.
  intros Hm Hi%getitem_Ok. unfold get_income_trend, getitem_month.
  rewrite Hm. simpl. rewrite Hi. simpl. by eexists.
Qed.

Lemma savings_analysis_Ok df months savings investments :
  df_month df = Some (MonthDates months) →
  df_columns df !! "Savings" = Some savings →
  df_columns df !! "Investments" = Some investments →
  ∃ fig, get_savings_analysis df = Ok fig ∧
         fig_data fig =
           [Scatter "Savings" (map strftime_Ym months) savings
              "lines+markers" "#4169E1" 3 None;
            Scatter "Investments" (map strftime_Ym months) investments
              "lines+markers" "#FF6347" 3 None].
Proof.
  intros Hm Hs%getitem_Ok Hi%getitem_Ok.
  unfold get_savings_analysis, getitem_month.
  rewrite Hm. simpl. rewrite Hs. simpl. rewrite Hi. simpl. by eexists.
Qed.

Lemma has_columns_lookup df cols c :
  has_columns df cols → c ∈ cols → ∃ s, df_columns df !! c = Some s.
Proof. intros H Hc. by apply (proj1 (Forall_forall _ _) H c Hc). Qed.

Lemma summary_Ok_columns df s :
  get_financial_summary df = Ok s → has_columns df summary_columns.
Proof.
  intros (income & expenses & savings & investments & net & cols & largest
          & Hi & He & Hs & Hv & Hn & Hg & _)%summary_inv.
  unfold has_columns, summary_columns.
  apply Forall_app. split.
  - repeat (constructor; [by eexists|]). constructor.
  - apply getitems_Ok in Hg.
    apply Forall_forall. intros c [i Hc]%list_elem_of_lookup.
    destruct (Forall2_lookup_l _ _ _ _ _ Hg Hc) as (p & _ & _ & Hp). by eexists.
Qed.

(** On an analyzer's frame the six builders succeed together, exactly when
    the frame has the columns of the summary. *)
Lemma analysis_of_Ok df months :
  df_month df = Some (MonthDates months) →
  (∃ a, analysis_of df = Ok a) ↔ has_columns df summary_columns.
Proof.
  intros Hm. split.
  - intros [a Ha]. unfold analysis_of in Ha.
    repeat match type of Ha with
           | (?m ≫= _) = Ok _ => destruct m eqn:?; simpl in Ha; [|done]
           end.
    by eapply summary_Ok_columns.
  - intros Hc.
    assert (has_columns df expense_columns) as Hexp.
    { unfold summary_columns in Hc. by apply Forall_app in Hc as [_ ?]. }
    destruct (has_columns_lookup df _ "Income" Hc) as [income Hi];
      [in_list|].
    destruct (has_columns_lookup df _ "Savings" Hc) as [savings Hs];
      [in_list|].
    destruct (has_columns_lookup df _ "Investments" Hc) as [inv Hv];
      [in_list|].
    destruct (has_columns_lookup df _ "Net_Income" Hc) as [net Hn];
      [in_list|].
    destruct (income_trend_Ok df months income Hm Hi) as (f1 & H1 & _).
    destruct (getitems_total df _ Hexp) as [cols Hg].
    destruct (monthly_expenses_Ok df months Hm Hexp) as (f3 & H3 & _).
    destruct (savings_analysis_Ok df months _ _ Hm Hs Hv) as (f4 & H4 & _).
    pose proof (net_income_trend_Ok df months net Hm Hn) as H5.
    destruct (summary_total df Hc) as [s H6].
    unfold analysis_of. rewrite H1. simpl.
    unfold get_expense_breakdown. rewrite Hg. simpl.
    rewrite H3. simpl. rewrite H4. simpl. rewrite H5. simpl. rewrite H6. simpl.
    by eexists.
Qed.

(** X5. [analyze_data] is answered 200 exactly when there is a dataset, its
    periods parse, and it has the sixteen numeric columns of the schema;
    nothing else can make the analysis fail. *)
Theorem analyze_data_succeeds_iff
    (to_datetime : list string → result (list Timestamp)) (st : AppState) :
  (analyze_data to_datetime st).2.2 = 200%nat ↔
  ∃ df self_df, current_data st = Some df ∧
                FinancialAnalyzer_init to_datetime df = Ok self_df ∧
                has_columns df summary_columns.
Proof.
  unfold analyze_data. destruct (current_data st) as [df|]; simpl.
  2: { split; [done|]. by intros (? & ? & ? & _). }
  destruct (FinancialAnalyzer_init to_datetime df) as [self_df|e] eqn:Hinit;
    simpl.
  2: { split; [done|]. intros (? & ? & [= <-] & ? & _). congruence. }
  destruct (init_fixpoint _ _ _ Hinit) as (_ & [months Hm] & Hcols & _).
  pose proof (analysis_of_Ok self_df months Hm) as Hiff.
  unfold has_columns in *. rewrite Hcols in Hiff.
  destruct (analysis_of self_df) as [a|e] eqn:Ha; simpl.
  - split; [|done]. intros _. exists df, self_df. split_and!; try done.
    apply Hiff. by eexists.
  - split; [done|]. intros (? & ? & [= <-] & _ & Hc).
    apply Hiff in Hc as [a Ha']. congruence.
Qed.

(** X6. On an analyzer's frame with the eleven category columns, the
    monthly-expenses chart is stacked and has eleven bar traces, one per
    category in the fixed order, each with the formatted periods as x-values
    and the category's column as y-values. *)
Theorem monthly_expenses_stacked_bars (df : DataFrame) (months : list Timestamp) :
  df_month df = Some (MonthDates months) →
  has_columns df expense_columns →
  ∃ fig, get_monthly_expenses df = Ok fig ∧
         barmode (fig_layout fig) = Some "stack" ∧
         length (fig_data fig) = 11%nat ∧
         ∀ i c, expense_columns !! i = Some c →
           ∃ col, df_columns df !! c = Some col ∧
                  fig_data fig !! i
                  = Some (Bar c (map strftime_Ym months) col).
Proof.
  intros Hm Hc.
  destruct (monthly_expenses_Ok df months Hm Hc) as (fig & Hfig & Hdata & Hb & _).
  exists fig. rewrite Hdata. split_and!; [done|done|by rewrite length_map|].
  intros i c Hi.
  destruct (has_columns_lookup df _ c Hc) as [col Hcol].
  { apply list_elem_of_lookup. eauto. }
  exists col. split; [done|]. rewrite lookup_map, Hi. simpl.
  unfold bar_of. by rewrite Hcol.
Qed.

Lemma monthly_expenses_stacked_bars_witness :
  df_month three_months = Some (MonthDates [ym 2024 1; ym 2024 2; ym 2024 3]) ∧
  has_columns three_months expense_columns ∧
  ∃ fig, get_monthly_expenses three_months = Ok fig ∧
         barmode (fig_layout fig) = Some "stack" ∧
         length (fig_data fig) = 11%nat ∧
         ∀ i c, expense_columns !! i = Some c →
           ∃ col, df_columns three_months !! c = Some col ∧
                  fig_data fig !! i = Some (Bar c (map strftime_Ym [ym 2024 1; ym 2024 2; ym 2024 3]) col).
Proof.
  split; [reflexivity|].
  split; [repeat constructor; by vm_compute; eexists|].
  apply (monthly_expenses_stacked_bars three_months [ym 2024 1; ym 2024 2; ym 2024 3]);
    [reflexivity|repeat constructor; by vm_compute; eexists].
Defined.



Lemma period_traces df months a fig t :
  df_month df = Some (MonthDates months) →
  analysis_of df = Ok a →
  fig ∈ period_charts a → t ∈ fig_data fig →
  trace_x t = map strftime_Ym months ∧
  ∃ c, df_columns df !! c = Some (trace_y t).
Proof.
  intros Hm Ha Hfig Ht.
  assert (has_columns df summary_columns) as Hc
    by (apply (analysis_of_Ok df months Hm); eauto).
  assert (has_columns df expense_columns) as Hexp.
  { unfold summary_columns in Hc. by apply Forall_app in Hc as [_ ?]. }
  destruct (has_columns_lookup df _ "Income" Hc) as [income Hi]; [in_list|].
  destruct (has_columns_lookup df _ "Savings" Hc) as [savings Hs]; [in_list|].
  destruct (has_columns_lookup df _ "Investments" Hc) as [inv Hv]; [in_list|].
  destruct (has_columns_lookup df _ "Net_Income" Hc) as [net Hn]; [in_list|].
  destruct (income_trend_Ok df months income Hm Hi) as (f1 & H1 & D1).
  destruct (monthly_expenses_Ok df months Hm Hexp) as (f3 & H3 & D3 & _).
  destruct (savings_analysis_Ok df months _ _ Hm Hs Hv) as (f4 & H4 & D4).
  pose proof (net_income_trend_Ok df months net Hm Hn) as H5.
  unfold analysis_of in Ha. rewrite H1 in Ha. simpl in Ha.
  destruct (get_expense_breakdown df) as [f2|]; simpl in Ha; [|done].
  rewrite H3 in Ha. simpl in Ha. rewrite H4 in Ha. simpl in Ha.
  rewrite H5 in Ha. simpl in Ha.
  destruct (get_financial_summary df) as [s|]; simpl in Ha; [|done].
  injection Ha as <-. unfold period_charts in Hfig. simpl in Hfig.
  repeat (apply elem_of_cons in Hfig as [->|Hfig]).
  - rewrite D1 in Ht. apply list_elem_of_singleton in Ht as ->. simpl. eauto.
  - rewrite D3 in Ht. apply list_elem_of_fmap in Ht as (c & -> & Hcin).
    destruct (has_columns_lookup df _ c Hexp Hcin) as [col Hcol].
    unfold bar_of. rewrite Hcol. simpl. eauto.
  - rewrite D4 in Ht.
    repeat (apply elem_of_cons in Ht as [->|Ht]); simpl; eauto.
    by apply elem_of_nil in Ht.
  - simpl in Ht. apply list_elem_of_singleton in Ht as ->. simpl. eauto.
  - by apply elem_of_nil in Hfig.
Qed.

(** X8. The four charts drawn over time share one axis: on an analyzer's
    frame with the columns of the schema the analysis exists, and every
    trace of the income, monthly-expenses, savings and net-income charts has
    the formatted periods of the rows as x-values and a column of the frame
    as y-values. *)
Theorem charts_share_the_period_axis (df : DataFrame) (months : list Timestamp) :
  df_month df = Some (MonthDates months) →
  has_columns df summary_columns →
  ∃ a, analysis_of df = Ok a ∧
       ∀ fig t, fig ∈ period_charts a → t ∈ fig_data fig →
         trace_x t = map strftime_Ym months ∧
         ∃ c, df_columns df !! c = Some (trace_y t).
Proof.
  intros Hm Hc. destruct (proj2 (analysis_of_Ok df months Hm) Hc) as [a Ha].
  exists a. split; [done|]. intros fig t. by apply period_traces.
Qed.

Lemma charts_share_the_period_axis_witness :
  df_month three_months = Some (MonthDates [ym 2024 1; ym 2024 2; ym 2024 3]) ∧
  has_columns three_months summary_columns ∧
  ∃ a, analysis_of three_months = Ok a ∧
       ∀ fig t, fig ∈ period_charts a → t ∈ fig_data fig →
         trace_x t = map strftime_Ym [ym 2024 1; ym 2024 2; ym 2024 3] ∧
         ∃ c, df_columns three_months !! c = Some (trace_y t).
Proof.
  split; [reflexivity|].
  split; [repeat constructor; by vm_compute; eexists|].
  apply (charts_share_the_period_axis three_months [ym 2024 1; ym 2024 2; ym 2024 3]);
    [reflexivity|repeat constructor; by vm_compute; eexists].
Defined.

(** X9. On a frame in which every column has one value per row, every
    trace of the four charts drawn over time has exactly one x-value and one
    y-value per row. *)
Theorem traces_have_one_point_per_row (df : DataFrame) (months : list Timestamp) :
  frame_well_formed df →
  df_month df = Some (MonthDates months) →
  has_columns df summary_columns →
  ∃ a, analysis_of df = Ok a ∧
       ∀ fig t, fig ∈ period_charts a → t ∈ fig_data fig →
         length (trace_x t) = df_rows df ∧ length (trace_y t) = df_rows df.
Proof.
  intros [Hcols Hmonths] Hm Hc.
  destruct (proj2 (analysis_of_Ok df months Hm) Hc) as [a Ha].
  exists a. split; [done|]. intros fig t Hfig Ht.
  destruct (period_traces df months a fig t Hm Ha Hfig Ht) as (Hx & c & Hy).
  rewrite Hm in Hmonths. rewrite Hx, length_map. split; [done|].
  by apply (Hcols c).
Qed.

Lemma traces_have_one_point_per_row_witness :
  frame_well_formed three_months ∧
  df_month three_months = Some (MonthDates [ym 2024 1; ym 2024 2; ym 2024 3]) ∧
  has_columns three_months summary_columns ∧
  ∃ a, analysis_of three_months = Ok a ∧
       ∀ fig t, fig ∈ period_charts a → t ∈ fig_data fig →
         length (trace_x t) = df_rows three_months ∧
         length (trace_y t) = df_rows three_months.
Proof.
  assert (frame_well_formed three_months) as Hwf.
  { split; [|reflexivity]. apply map_Forall_to_list. vm_compute.
    repeat constructor. }
  split; [exact Hwf|]. split; [reflexivity|].
  split; [repeat constructor; by vm_compute; eexists|].
  apply (traces_have_one_point_per_row three_months [ym 2024 1; ym 2024 2; ym 2024 3]);
    [exact Hwf|reflexivity|repeat constructor; by vm_compute; eexists].
Defined.

(** X10. When a category column is absent, the expense breakdown raises a
    [KeyError] that lists every absent category, and no other column. *)
Theorem expense_breakdown_reports_every_missing_category (df : DataFrame) :
  ¬ has_columns df expense_columns →
  ∃ missing, get_expense_breakdown df = Raise (KeyError missing) ∧
             missing ≠ [] ∧
             ∀ c, c ∈ missing ↔
                  c ∈ expense_columns ∧ df_columns df !! c = None.
Proof.
  intros Hnot. unfold get_expense_breakdown, getitems.
  destruct (missing_columns df expense_columns) as [|c l] eqn:E.
  { by apply missing_columns_nil in E. }
  simpl. exists (c :: l). split_and!; [done|done|].
  intros c'. rewrite <- E. unfold missing_columns.
  rewrite list_elem_of_filter. tauto.
Qed.

Lemma expense_breakdown_reports_every_missing_category_witness :
  ¬ has_columns without_two_categories expense_columns ∧
  ∃ missing, get_expense_breakdown without_two_categories
             = Raise (KeyError missing) ∧
             missing ≠ [] ∧
             ∀ c, c ∈ missing ↔
                  c ∈ expense_columns ∧
                  df_columns without_two_categories !! c = None.
Proof.
  assert (¬ has_columns without_two_categories expense_columns) as Hnot.
  { intros H.
    destruct (has_columns_lookup _ _ "Insurance" H) as [s Hs]; [in_list|].
    by vm_compute in Hs. }
  split; [exact Hnot|].
  by apply (expense_breakdown_reports_every_missing_category
              without_two_categories).
Defined.

Lemma traverse_first_Raise {A B} (f : A → result B) before c after e :
  Forall (λ a, ∃ b, f a = Ok b) before →
  f c = Raise e →
  traverse f (before ++ c :: after) = Raise e.
Proof.
  intros Hbefore Hc. induction Hbefore as [|a l [b Hb] _ IH]; cbn [app traverse].
  - by rewrite Hc.
  - by rewrite Hb, IH.
Qed.

(** X11. The monthly-expenses chart, which reads the categories one by
    one, raises the [KeyError] of the first absent category only. *)
Theorem monthly_expenses_reports_first_missing_category
    (df : DataFrame) (months : list Timestamp) (i : nat) (c : string) :
  df_month df = Some (MonthDates months) →
  expense_columns !! i = Some c →
  df_columns df !! c = None →
  has_columns df (take i expense_columns) →
  get_monthly_expenses df = Raise (KeyError [c]).
Proof.
  intros Hm Hi Hnone Hbefore. unfold get_monthly_expenses.
  rewrite <- (take_drop_middle _ _ _ Hi).
  rewrite (traverse_first_Raise _ _ _ _ (KeyError [c])); [done| |].
  - eapply Forall_impl; [exact Hbefore|]. intros c' [s Hs].
    unfold getitem_month, getitem. rewrite Hm, Hs. simpl. by eexists.
  - unfold getitem_month, getitem. by rewrite Hm, Hnone.
Qed.

Lemma monthly_expenses_reports_first_missing_category_witness :
  df_month without_two_categories = Some (MonthDates [ym 2024 1; ym 2024 2; ym 2024 3]) ∧
  expense_columns !! 2%nat = Some "Insurance" ∧
  df_columns without_two_categories !! "Insurance" = None ∧
  has_columns without_two_categories (take 2 expense_columns) ∧
  get_monthly_expenses without_two_categories = Raise (KeyError ["Insurance"]).
Proof.
  split; [reflexivity|]. split; [reflexivity|]. split; [by vm_compute|].
  split; [repeat constructor; by vm_compute; eexists|].
  apply (monthly_expenses_reports_first_missing_category
           without_two_categories [ym 2024 1; ym 2024 2; ym 2024 3] 2 "Insurance");
    [reflexivity|reflexivity|by vm_compute
    |repeat constructor; by vm_compute; eexists].
Defined.

(** ** The summary *)




Lemma count_negative_le (s : list Q) : (count_negative s ≤ length s)%nat.
Proof. apply length_filter. Qed.

Lemma count_negative_zero (s : list Q) :
  count_negative s = 0%nat ↔ Forall (λ v, 0 <= v) s.
Proof.
  unfold count_negative. induction s as [|v s IH]; [by split|].
  rewrite filter_cons, Forall_cons.
  destruct (decide (v < 0)) as [Hv|Hv]; simpl.
  - split; [done|]. intros [Hv' _]. by apply Qle_not_lt in Hv'.
  - rewrite IH. apply Qnot_lt_le in Hv. tauto.
Qed.

(** X13. [months_in_deficit] is at most the number of rows; it is zero
    exactly when no [Net_Income] value is negative, and it is the number of
    rows exactly when all of them are. *)
Theorem months_in_deficit_bounds (df : DataFrame) :
  has_columns df summary_columns →
  ∃ s net, get_financial_summary df = Ok s ∧
           df_columns df !! "Net_Income" = Some net ∧
           (months_in_deficit s ≤ length net)%nat ∧
           (months_in_deficit s = 0%nat ↔ Forall (λ v, 0 <= v) net) ∧
           (months_in_deficit s = length net ↔ Forall (λ v, v < 0) net).
Proof.
  intros Hcols. destruct (summary_total df Hcols) as [s Hs].
  destruct (summary_inv df s Hs)
    as (income & expenses & savings & investments & net & cols & largest
        & _ & _ & _ & _ & Hn & _ & _ & ->).
  eexists _, net. split; [exact Hs|]. simpl. rewrite mask_sum_count.
  split_and!; [done|apply count_negative_le|apply count_negative_zero|].
  unfold count_negative. clear Hn Hs. induction net as [|v l IH]; [by split|].
  rewrite filter_cons, Forall_cons. pose proof (length_filter (λ v, v < 0) l).
  destruct (decide (v < 0)); simpl.
  - rewrite <- IH. split; [intros [=]; by split|intros [_ ->]; done].
  - split; [lia|tauto].
Qed.

Lemma months_in_deficit_bounds_witness :
  has_columns three_months summary_columns ∧
  ∃ s net, get_financial_summary three_months = Ok s ∧
           df_columns three_months !! "Net_Income" = Some net ∧
           (months_in_deficit s ≤ length net)%nat ∧
           (months_in_deficit s = 0%nat ↔ Forall (λ v, 0 <= v) net) ∧
           (months_in_deficit s = length net ↔ Forall (λ v, v < 0) net).
Proof.
  split; [|apply (months_in_deficit_bounds three_months)];
    repeat constructor; by vm_compute; eexists.
Defined.

Lemma rate_sign (savings net : Q) :
  0 < net → (savings / net * 100 < 0 ↔ savings < 0).
Proof.
  intros Hnet.
  assert (0 < 100 / net) as Hk.
  { apply Qlt_shift_div_l; [done|]. lra. }
  assert (savings / net * 100 == savings * (100 / net)) as -> by (field; lra).
  split.
  - intros H. destruct (Qlt_le_dec savings 0) as [|Hs]; [done|].
    pose proof (Qmult_le_0_compat _ _ Hs (Qlt_le_weak _ _ Hk)). lra.
  - intros H. pose proof (Qmult_lt_compat_r _ _ _ Hk H) as H'. lra.
Qed.

(** X14. The savings rate is negative exactly when net income is positive
    and total savings are negative; with non-negative total savings it is
    never negative. *)
Theorem savings_rate_sign (df : DataFrame) :
  has_columns df summary_columns →
  ∃ s, get_financial_summary df = Ok s ∧
       (savings_rate s < 0 ↔ 0 < net_income s ∧ total_savings s < 0) ∧
       (0 <= total_savings s → 0 <= savings_rate s).
Proof.
  intros Hcols. destruct (summary_total df Hcols) as [s Hs].
  exists s. split; [done|].
  destruct (summary_inv df s Hs)
    as (income & expenses & savings & investments & net & cols & largest
        & _ & _ & _ & _ & _ & _ & _ & ->). clear Hs. simpl.
  destruct (Qltb 0 (Series_sum income - Series_sum expenses)) eqn:E.
  - apply Qltb_lt in E. pose proof (rate_sign (Series_sum savings) _ E) as Hr.
    split; [tauto|]. intros Hsav. apply Qnot_lt_le. rewrite Hr. lra.
  - apply Qltb_ge in E. split; [|lra]. split; [lra|]. intros [H _]. lra.
Qed.

Lemma savings_rate_sign_witness :
  has_columns three_months summary_columns ∧
  ∃ s, get_financial_summary three_months = Ok s ∧
       (savings_rate s < 0 ↔ 0 < net_income s ∧ total_savings s < 0) ∧
       (0 <= total_savings s → 0 <= savings_rate s).
Proof.
  split; [|apply (savings_rate_sign three_months)];
    repeat constructor; by vm_compute; eexists.
Defined.

Lemma Qdiv_le_antitone (s a b : Q) :
  0 <= s → 0 < a → a <= b → s / b <= s / a.
Proof.
  intros Hs Ha Hab.
  assert (0 < b) as Hb by lra.
  apply Qle_shift_div_l; [done|].
  assert (s / b * a == s * (a / b)) as -> by (field; lra).
  assert (a / b <= 1) as H1.
  { apply Qle_shift_div_r; [done|]. lra. }
  assert (0 <= a / b) as H0.
  { apply Qle_shift_div_l; [done|]. lra. }
  nra.
Qed.

(** X15. With positive net income, non-negative total expenses and
    non-negative total savings, the savings rate off net income is at least
    the traditional rate off income. *)
Theorem savings_rate_at_least_traditional (df : DataFrame) :
  has_columns df summary_columns →
  ∃ s, get_financial_summary df = Ok s ∧
       (0 < net_income s → 0 <= total_expenses s → 0 <= total_savings s →
        traditional_savings_rate s <= savings_rate s).
Proof.
  intros Hcols. destruct (summary_total df Hcols) as [s Hs].
  exists s. split; [done|].
  destruct (summary_inv df s Hs)
    as (income & expenses & savings & investments & net & cols & largest
        & _ & _ & _ & _ & _ & _ & _ & ->). clear Hs. simpl.
  intros Hnet Hexp Hsav.
  assert (0 < Series_sum income) as Hinc by lra.
  apply Qltb_lt in Hnet as Hnet', Hinc as Hinc'. rewrite Hnet', Hinc'.
  pose proof (Qdiv_le_antitone (Series_sum savings)
                (Series_sum income - Series_sum expenses) (Series_sum income)
                Hsav Hnet ltac:(lra)).
  lra.
Qed.

Lemma savings_rate_at_least_traditional_witness :
  has_columns three_months summary_columns ∧
  ∃ s, get_financial_summary three_months = Ok s ∧
       (0 < net_income s → 0 <= total_expenses s → 0 <= total_savings s →
        traditional_savings_rate s <= savings_rate s).
Proof.
  split; [|apply (savings_rate_at_least_traditional three_months)];
    repeat constructor; by vm_compute; eexists.
Defined.

















(** ** Period labels *)

(** X18. Two timestamps with four-digit years get the same [%Y-%m] label
    exactly when they fall in the same month of the same year. *)
Theorem period_labels_identify_months (a b : Timestamp) :
  four_digit_year a → four_digit_year b →
  strftime_Ym a = strftime_Ym b ↔
  ts_year a = ts_year b ∧ ts_month a = ts_month b.
Proof.
  intros Ha Hb. split.
  - intros Heq.
    pose proof (strftime_Ym_leb a b Ha Hb) as Hab.
    pose proof (strftime_Ym_leb b a Hb Ha) as Hba.
    pose proof (strftime_Ym_leb a a Ha Ha) as Haa.
    rewrite <- Heq in Hba. rewrite <- Heq, Haa in Hab. rewrite Haa in Hba.
    unfold period_leb in *.
    destruct (Nat.ltb_spec (ts_year a) (ts_year a)); [lia|].
    rewrite Nat.eqb_refl, Nat.leb_refl in Hab, Hba. simpl in *.
    destruct (Nat.ltb_spec (ts_year a) (ts_year b)),
             (Nat.ltb_spec (ts_year b) (ts_year a)),
             (Nat.eqb_spec (ts_year a) (ts_year b)),
             (Nat.eqb_spec (ts_year b) (ts_year a)),
             (Nat.leb_spec (ts_month a) (ts_month b)),
             (Nat.leb_spec (ts_month b) (ts_month a));
      simpl in *; try done; try lia.
  - intros [Hy Hm]. unfold strftime_Ym. by rewrite Hy, Hm.
Qed.

Lemma period_labels_identify_months_witness :
  four_digit_year (mkTimestamp 2024 1 1) ∧
  four_digit_year (mkTimestamp 2024 1 31) ∧
  (strftime_Ym (mkTimestamp 2024 1 1) = strftime_Ym (mkTimestamp 2024 1 31) ↔
   ts_year (mkTimestamp 2024 1 1) = ts_year (mkTimestamp 2024 1 31) ∧
   ts_month (mkTimestamp 2024 1 1) = ts_month (mkTimestamp 2024 1 31)).
Proof.
  assert (four_digit_year (mkTimestamp 2024 1 1)) as H1
    by (split; simpl; lia).
  assert (four_digit_year (mkTimestamp 2024 1 31)) as H2
    by (split; simpl; lia).
  split; [exact H1|]. split; [exact H2|].
  exact (period_labels_identify_months _ _ H1 H2).
Defined.

(** ** The adviser *)

Lemma append_assoc (a b c : string) : (a +:+ b) +:+ c = a +:+ b +:+ c.
Proof.
  induction a as [|x a IH]; [done|].
  change (String x ((a +:+ b) +:+ c) = String x (a +:+ b +:+ c)). by f_equal.
Qed.

Lemma contains_here (sub after : string) : contains (sub +:+ after) sub.
Proof. by exists "", after. Qed.

Lemma contains_later (p s sub : string) :
  contains s sub → contains (p +:+ s) sub.
Proof.
  intros (before & after & ->). exists (p +:+ before), after.
  by rewrite append_assoc.
Qed.

(** ** Paths *)

Lemma split_slash_flat (name : string) :
  no_slash name = true → split_slash name = [name].
Proof.
  induction name as [|c name IH]; [done|]. cbn [no_slash split_slash].
  intros [Hc Hname]%andb_prop. apply negb_true_iff in Hc.
  by rewrite Hc, (IH Hname).
Qed.

(** The path of an upload with a flat name is the name inside the upload
    folder. *)
Lemma normpath_upload (name : string) :
  flat_name name = true →
  normpath (os_path_join UPLOAD_FOLDER name) = "uploads/" +:+ name.
Proof.
  unfold flat_name.
  intros [[[Hslash Hempty]%andb_prop Hdot]%andb_prop Hdots]%andb_prop.
  apply negb_true_iff in Hempty, Hdot, Hdots.
  assert (startswith name "/" = false) as Hrel.
  { destruct name as [|c name]; [done|]. cbn [no_slash] in Hslash.
    apply andb_prop in Hslash as [Hc _]. apply negb_true_iff in Hc.
    cbn [startswith]. rewrite (Ascii.eqb_sym "/" c), Hc. done. }
  unfold os_path_join. rewrite Hrel.
  change (normpath (String "u" (String "p" (String "l" (String "o"
            (String "a" (String "d" (String "s" (String "/" name))))))))
          = "uploads/" +:+ name).
  unfold normpath. cbn [String.eqb startswith Ascii.eqb Bool.eqb andb negb
                        split_slash].
  rewrite (split_slash_flat _ Hslash).
  cbn [normpath_loop String.eqb Ascii.eqb Bool.eqb orb negb].
  rewrite Hempty, Hdot, Hdots. done.
Qed.

Lemma replace_slashes_length (name : string) :
  String.length (replace_slashes name) = String.length name.
Proof. induction name; simpl; congruence. Qed.

Lemma replace_slashes_no_slash (name : string) :
  no_slash (replace_slashes name) = true.
Proof.
  induction name as [|c name IH]; [done|]. cbn [replace_slashes no_slash].
  rewrite IH. by destruct (Ascii.eqb c "/") eqn:E; [|rewrite E].
Qed.

(** [replace_slashes] is such a [secure_filename]. *)
Lemma replace_slashes_flat (name : string) :
  endswith name ".csv" = true → flat_name (replace_slashes name) = true.
Proof.
  unfold endswith, flat_name. intros [Hlen _]%andb_prop.
  apply Nat.leb_le in Hlen. rewrite <- (replace_slashes_length name) in Hlen.
  rewrite replace_slashes_no_slash.
  destruct (replace_slashes name) as [|c1 [|c2 [|c3 s]]];
    simpl in Hlen; try lia.
  rewrite !andb_true_iff, !negb_true_iff, !String.eqb_neq. by split_and!.
Qed.

Section SessionProperties.

Variable read_csv : string → result DataFrame.
Variable secure_filename : string → string.
Variable to_datetime : list string → result (list Timestamp).
Variable read_csv_path : string → result DataFrame.
Variable generate_content : string → string → option string.
Variable format_2f : Q → string.
Variable format_1f : Q → string.
Variable format_0f : Q → string.
Variable str_float : Q → string.

Local Abbreviation advice :=
  (generate_financial_advice generate_content
     format_2f format_1f format_0f str_float).
Local Abbreviation prompt_of := (advice_prompt format_2f format_1f).
Local Abbreviation chat' :=
  (chat to_datetime generate_content format_2f format_1f format_0f str_float).
Local Abbreviation handle' :=
  (handle read_csv secure_filename to_datetime read_csv_path generate_content
     format_2f format_1f format_0f str_float).
Local Abbreviation run' :=
  (run read_csv secure_filename to_datetime read_csv_path generate_content
     format_2f format_1f format_0f str_float).

Lemma first_response_Some models prompt text :
  first_response generate_content models prompt = Some text ↔
  ∃ i model, models !! i = Some model ∧
             generate_content model prompt = Some text ∧
             Forall (λ m, generate_content m prompt = None) (take i models).
Proof.
  induction models as [|m models IH]; simpl.
  - split; [done|]. by intros (i & model & ? & _).
  - destruct (generate_content m prompt) as [t|] eqn:Hm.
    + split.
      * intros [= ->]. exists 0%nat, m. split_and!; [done|done|simpl; constructor].
      * intros ([|i] & model & Hi & Hmodel & Hbefore); simpl in *.
        -- congruence.
        -- apply Forall_cons in Hbefore as [Hm' _]. congruence.
    + rewrite IH. split.
      * intros (i & model & Hi & Hmodel & Hbefore).
        exists (S i), model. simpl. split_and!; [done|done|by constructor].
      * intros ([|i] & model & Hi & Hmodel & Hbefore); simpl in *.
        -- congruence.
        -- apply Forall_cons in Hbefore as [_ Hbefore]. by exists i, model.
Qed.

Lemma first_response_None models prompt :
  first_response generate_content models prompt = None ↔
  Forall (λ m, generate_content m prompt = None) models.
Proof.
  induction models as [|m models IH]; simpl; [by split|].
  rewrite Forall_cons. destruct (generate_content m prompt).
  - split; [done|]. by intros [? _].
  - rewrite IH. split; [by split|by intros [_ ?]].
Qed.

(** X19. The advice is the answer of the first model, in the order of
    [models_to_try], that answers the prompt: a model that answers after
    every model before it has failed decides the advice, whatever the
    later models would say. *)
Theorem advice_is_the_first_answer
    (s : Summary) (question : string) (i : nat) (model text : string) :
  models_to_try !! i = Some model →
  generate_content model (prompt_of s question) = Some text →
  Forall (λ m, generate_content m (prompt_of s question) = None)
         (take i models_to_try) →
  advice s question = text.
Proof.
  intros Hi Hmodel Hbefore. unfold generate_financial_advice.
  assert (first_response generate_content models_to_try (prompt_of s question)
          = Some text) as ->; [|done].
  apply first_response_Some. by exists i, model.
Qed.

(** X20. When every model fails, the advice is the basic response, which
    is built from the summary alone, not from the question; it names the
    largest expense category, and it says the spending exceeds the earnings
    exactly when net income is negative. *)
Theorem advice_falls_back_on_the_summary (s : Summary) (question : string) :
  Forall (λ m, generate_content m (prompt_of s question) = None) models_to_try →
  advice s question = basic_response format_0f str_float s ∧
  contains (advice s question) (largest_expense_category s) ∧
  contains (advice s question)
    (if Qltb (net_income s) 0
     then "Spending ₹" +:+ str_float (Qabs (net_income s))
          +:+ " more than you earn annually"
     else "Living within your means").
Proof.
  intros Hnone%first_response_None.
  assert (advice s question = basic_response format_0f str_float s) as Hbasic.
  { unfold generate_financial_advice. by rewrite Hnone. }
  split; [done|]. rewrite Hbasic. unfold basic_response. split.
  - do 5 apply contains_later. apply contains_here.
  - apply contains_later, contains_here.
Qed.

(** ** Chat and the session *)

(** X21. A chat without a dataset, or with a missing or empty question, is
    answered 400 and leaves the state as it was; no model is asked. *)
Theorem chat_rejected_leaves_state (question : option string) (st : AppState) :
  current_data st = None ∨ default "" question = "" →
  ∃ error, chat' question st = (st, (CError error None, 400%nat)).
Proof.
  unfold chat. intros [Hnone|Hq].
  - rewrite Hnone. by eexists.
  - destruct (current_data st); [|by eexists]. rewrite Hq. by eexists.
Qed.

(** X22. For a non-empty question, [chat] leaves the state [analyze_data]
    leaves, is answered 200 exactly when [analyze_data] is, and then
    answers with the advice computed from the summary [analyze_data]
    reports. *)
Theorem chat_agrees_with_analysis (question : option string) (st : AppState) :
  default "" question ≠ "" →
  (chat' question st).1 = (analyze_data to_datetime st).1 ∧
  ((chat' question st).2.2 = 200%nat ↔
   (analyze_data to_datetime st).2.2 = 200%nat) ∧
  (∀ a, (analyze_data to_datetime st).2.1 = JAnalysis a →
        (chat' question st).2.1
        = CResponse (advice (summary a) (default "" question))).
Proof.
  intros Hq%String.eqb_neq. unfold chat, analyze_data.
  destruct (current_data st) as [df|]; simpl; [|done].
  rewrite Hq.
  destruct (FinancialAnalyzer_init to_datetime df) as [self_df|e] eqn:Hinit;
    simpl; [|done].
  destruct (init_fixpoint _ _ _ Hinit) as (_ & [months Hm] & _).
  pose proof (analysis_of_Ok self_df months Hm) as Hiff.
  destruct (analysis_of self_df) as [a|e] eqn:Ha; simpl.
  - assert (get_financial_summary self_df = Ok (summary a)) as ->.
    { unfold analysis_of in Ha.
      repeat match type of Ha with
             | (?m ≫= _) = Ok _ => destruct m eqn:?; simpl in Ha; [|done]
             end.
      by injection Ha as <-. }
    simpl. split_and!; [done|done|]. by intros ? [= <-].
  - destruct (get_financial_summary self_df) as [s|e'] eqn:Hs; simpl.
    + apply summary_Ok_columns, Hiff in Hs as [a Ha']. congruence.
    + done.
Qed.

Lemma handle_upload file st :
  handle' (Upload file) st
  = ((upload_file read_csv secure_filename file st).1,
     (upload_file read_csv secure_filename file st).2.2).
Proof. unfold handle. by destruct (upload_file _ _ _ _) as [? [? ?]]. Qed.

Lemma handle_analyze st :
  handle' Analyze st
  = ((analyze_data to_datetime st).1, (analyze_data to_datetime st).2.2).
Proof. unfold handle. by destruct (analyze_data _ _) as [? [? ?]]. Qed.

Lemma handle_chat question st :
  handle' (Chat question) st = ((chat' question st).1, (chat' question st).2.2).
Proof. unfold handle. by destruct (chat _ _ _ _ _ _ _ _) as [? [? ?]]. Qed.

Lemma handle_load_sample st :
  handle' LoadSample st
  = ((load_sample_data read_csv_path st).1,
     (load_sample_data read_csv_path st).2.2).
Proof. unfold handle. by destruct (load_sample_data _ _) as [? [? ?]]. Qed.

(** [analyze_data] and [chat] either leave the state as it is, without a
    200 answer, or store the analyzer's frame. *)
Lemma analyze_data_state st :
  ((analyze_data to_datetime st).1 = st ∧
   (analyze_data to_datetime st).2.2 ≠ 200%nat) ∨
  ∃ df self_df, current_data st = Some df ∧
                FinancialAnalyzer_init to_datetime df = Ok self_df ∧
                (analyze_data to_datetime st).1
                = {| current_data := Some self_df; files := files st |}.
Proof.
  unfold analyze_data. destruct (current_data st) as [df|] eqn:Hd; simpl;
    [|by left].
  destruct (FinancialAnalyzer_init to_datetime df) as [self_df|] eqn:Hinit;
    simpl; [|by left].
  right. exists df, self_df. by destruct (analysis_of self_df).
Qed.

Lemma chat_state question st :
  ((chat' question st).1 = st ∧ (chat' question st).2.2 ≠ 200%nat) ∨
  ∃ df self_df, current_data st = Some df ∧
                FinancialAnalyzer_init to_datetime df = Ok self_df ∧
                (chat' question st).1
                = {| current_data := Some self_df; files := files st |}.
Proof.
  unfold chat. destruct (current_data st) as [df|] eqn:Hd; simpl; [|by left].
  destruct (String.eqb (default "" question) ""); simpl; [by left|].
  destruct (FinancialAnalyzer_init to_datetime df) as [self_df|] eqn:Hinit;
    simpl; [|by left].
  right. exists df, self_df. by destruct (get_financial_summary self_df).
Qed.

Lemma stored_frame_effects (st st' : AppState) (status : nat) :
  ((st' = st ∧ status ≠ 200%nat) ∨
   ∃ df self_df, current_data st = Some df ∧
                 FinancialAnalyzer_init to_datetime df = Ok self_df ∧
                 st' = {| current_data := Some self_df; files := files st |}) →
  (is_Some (current_data st) → is_Some (current_data st')) ∧
  (status = 200%nat → is_Some (current_data st')) ∧
  files st' = files st ∧
  df_columns <$> current_data st' = df_columns <$> current_data st ∧
  df_rows <$> current_data st' = df_rows <$> current_data st.
Proof.
  intros [[-> Hstatus]|(df & self_df & Hd & Hinit & ->)]; [done|].
  destruct (init_fixpoint _ _ _ Hinit) as (_ & _ & Hc & Hr).
  simpl. rewrite Hd. simpl. rewrite Hc, Hr. split_and!; eauto.
Qed.

Lemma upload_file_state upload st :
  let r := upload_file read_csv secure_filename upload st in
  (r.2.2 = 200%nat → is_Some (current_data r.1)) ∧
  (r.2.2 ≠ 200%nat → current_data r.1 = current_data st).
Proof.
  unfold upload_file.
  destruct (MAX_CONTENT_LENGTH <? content_length upload)%N; simpl; [done|].
  destruct (file_part upload) as [f|]; simpl; [|done].
  destruct (String.eqb (filename f) ""); simpl; [done|].
  destruct (endswith (filename f) ".csv"); simpl; [|done].
  destruct (disk upload); simpl; [|done].
  destruct (read_csv (stream f)); simpl; split_and!; eauto; done.
Qed.

(** With a [secure_filename] that returns flat names, an upload writes
    inside the upload folder. *)
Lemma upload_file_files upload st path :
  (∀ name, endswith name ".csv" = true →
           flat_name (secure_filename name) = true) →
  startswith path "uploads/" = false →
  files (upload_file read_csv secure_filename upload st).1 !! path
  = files st !! path.
Proof.
  intros Hflat Hpath. unfold upload_file.
  destruct (MAX_CONTENT_LENGTH <? content_length upload)%N; simpl; [done|].
  destruct (file_part upload) as [f|]; simpl; [|done].
  destruct (String.eqb (filename f) ""); simpl; [done|].
  destruct (endswith (filename f) ".csv") eqn:Hcsv; simpl; [|done].
  rewrite (normpath_upload _ (Hflat _ Hcsv)).
  assert (∀ contents,
    <["uploads/" +:+ secure_filename (filename f) := contents]>
      (files st) !! path = files st !! path) as Hfiles.
  { intros contents. apply lookup_insert_ne. intros <-.
    by vm_compute in Hpath. }
  destruct (disk upload) as [|e [contents|]];
    [destruct (read_csv (stream f))| |]; simpl; auto.
Qed.

(** What one request leaves of the state. *)
Lemma handle_effects (r : Request) (st : AppState) :
  let st' := (handle' r st).1 in
  (is_Some (current_data st) → is_Some (current_data st')) ∧
  ((handle' r st).2 = 200%nat → is_Some (current_data st')) ∧
  (read_only r →
   files st' = files st ∧
   df_columns <$> current_data st' = df_columns <$> current_data st ∧
   df_rows <$> current_data st' = df_rows <$> current_data st).
Proof.
  destruct r as [upload| |question|]; cbv zeta.
  - rewrite handle_upload. simpl.
    pose proof (upload_file_state upload st) as (H200 & Hkeep).
    simpl in *. split_and!; [|done|done].
    intros Hsome.
    destruct (decide ((upload_file read_csv secure_filename upload st).2.2
                      = 200%nat)) as [H|H]; [by apply H200|].
    by rewrite (Hkeep H).
  - rewrite handle_analyze. simpl.
    destruct (stored_frame_effects _ _ _ (analyze_data_state st))
      as (H1 & H2 & Hf & Hc & Hr).
    by split_and!.
  - rewrite handle_chat. simpl.
    destruct (stored_frame_effects _ _ _ (chat_state question st))
      as (H1 & H2 & Hf & Hc & Hr).
    by split_and!.
  - rewrite handle_load_sample. unfold load_sample_data.
    destruct (read_csv_path "financial_data.csv"); simpl;
      split_and!; eauto; done.
Qed.

(** The files one request leaves outside the upload folder. *)
Lemma handle_files (r : Request) (st : AppState) (path : string) :
  (∀ name, endswith name ".csv" = true →
           flat_name (secure_filename name) = true) →
  startswith path "uploads/" = false →
  files (handle' r st).1 !! path = files st !! path.
Proof.
  intros Hflat Hpath. destruct r as [upload| |question|].
  - rewrite handle_upload. simpl. by apply upload_file_files.
  - rewrite handle_analyze. simpl.
    destruct (stored_frame_effects _ _ _ (analyze_data_state st))
      as (_ & _ & -> & _). done.
  - rewrite handle_chat. simpl.
    destruct (stored_frame_effects _ _ _ (chat_state question st))
      as (_ & _ & -> & _). done.
  - rewrite handle_load_sample. unfold load_sample_data.
    by destruct (read_csv_path "financial_data.csv").
Qed.

(** X23. There is no way to unload a dataset: once a dataset is loaded,
    one is loaded after any sequence of requests. *)
Theorem dataset_is_never_unloaded (rs : list Request) (st : AppState) :
  is_Some (current_data st) → is_Some (current_data (run' rs st)).
Proof.
  revert st. unfold run. induction rs as [|r rs IH]; intros st Hst; [done|].
  cbn [foldl]. apply IH.
  pose proof (handle_effects r st) as (Hkeep & _). by apply Hkeep.
Qed.

(** X24. With a [secure_filename] that turns every name ending in
    [.csv] into a flat file name (no path separator, not a name of a
    directory), requests write to the upload folder only: a file whose
    path does not start with [uploads/] holds after any sequence of
    requests what it held before, so that no upload can replace
    [financial_data.csv]. *)
Theorem requests_write_only_the_upload_folder
    (rs : list Request) (st : AppState) (path : string) :
  (∀ name, endswith name ".csv" = true →
           flat_name (secure_filename name) = true) →
  startswith path "uploads/" = false →
  files (run' rs st) !! path = files st !! path.
Proof.
  intros Hflat Hpath. revert st. unfold run.
  induction rs as [|r rs IH]; intros st; [done|].
  cbn [foldl]. rewrite IH. by apply handle_files.
Qed.

(** X25. Analyses and chats are read-only on the numbers: after any
    sequence of them the files, the numeric columns and the number of rows
    of the dataset are what they were. *)
Theorem analysis_and_chat_keep_the_numbers (rs : list Request) (st : AppState) :
  Forall read_only rs →
  files (run' rs st) = files st ∧
  df_columns <$> current_data (run' rs st) = df_columns <$> current_data st ∧
  df_rows <$> current_data (run' rs st) = df_rows <$> current_data st.
Proof.
  intros Hrs. revert st. unfold run.
  induction Hrs as [|r rs Hr _ IH]; intros st; [done|].
  cbn [foldl]. destruct (IH (handle' r st).1) as (-> & -> & ->).
  pose proof (handle_effects r st) as (_ & _ & Hro). by apply Hro.
Qed.

End SessionProperties.

Lemma advice_is_the_first_answer_witness :
  models_to_try !! 2%nat = Some "gemini-pro" ∧
  gemini_pro_only "gemini-pro"
    (advice_prompt format_units format_units empty_summary "How do I save?")
  = Some "Build an emergency fund." ∧
  Forall (λ m, gemini_pro_only m
                 (advice_prompt format_units format_units empty_summary
                    "How do I save?") = None)
         (take 2 models_to_try) ∧
  generate_financial_advice gemini_pro_only
    format_units format_units format_units format_units
    empty_summary "How do I save?"
  = "Build an emergency fund.".
Proof.
  split; [reflexivity|]. split; [reflexivity|].
  split; [repeat constructor|].
  apply (advice_is_the_first_answer gemini_pro_only
           format_units format_units format_units format_units
           empty_summary "How do I save?" 2 "gemini-pro");
    [reflexivity|reflexivity|repeat constructor].
Defined.

Lemma advice_falls_back_on_the_summary_witness :
  Forall (λ m, no_model m
                 (advice_prompt format_units format_units empty_summary
                    "How do I save?") = None)
         models_to_try ∧
  generate_financial_advice no_model
    format_units format_units format_units format_units
    empty_summary "How do I save?"
  = basic_response format_units format_units empty_summary ∧
  contains (generate_financial_advice no_model
              format_units format_units format_units format_units
              empty_summary "How do I save?")
           (largest_expense_category empty_summary) ∧
  contains (generate_financial_advice no_model
              format_units format_units format_units format_units
              empty_summary "How do I save?")
    (if Qltb (net_income empty_summary) 0
     then "Spending ₹" +:+ format_units (Qabs (net_income empty_summary))
          +:+ " more than you earn annually"
     else "Living within your means").
Proof.
  split; [repeat constructor|].
  apply (advice_falls_back_on_the_summary no_model
           format_units format_units format_units format_units
           empty_summary "How do I save?").
  repeat constructor.
Defined.

Lemma chat_rejected_leaves_state_witness :
  (current_data march_session = None ∨ default "" None = "") ∧
  ∃ error, chat year_month_to_datetime gemini_pro_only
             format_units format_units format_units format_units
             None march_session
           = (march_session, (CError error None, 400%nat)).
Proof.
  split; [by right|].
  apply (chat_rejected_leaves_state year_month_to_datetime gemini_pro_only
           format_units format_units format_units format_units
           None march_session).
  by right.
Defined.

Lemma chat_agrees_with_analysis_witness :
  default "" (Some "How do I save?") ≠ "" ∧
  (chat year_month_to_datetime gemini_pro_only
     format_units format_units format_units format_units
     (Some "How do I save?") march_session).1
  = (analyze_data year_month_to_datetime march_session).1 ∧
  ((chat year_month_to_datetime gemini_pro_only
      format_units format_units format_units format_units
      (Some "How do I save?") march_session).2.2 = 200%nat ↔
   (analyze_data year_month_to_datetime march_session).2.2 = 200%nat) ∧
  (∀ a, (analyze_data year_month_to_datetime march_session).2.1 = JAnalysis a →
        (chat year_month_to_datetime gemini_pro_only
           format_units format_units format_units format_units
           (Some "How do I save?") march_session).2.1
        = CResponse (generate_financial_advice gemini_pro_only
                       format_units format_units format_units format_units
                       (summary a) (default "" (Some "How do I save?")))).
Proof.
  split; [done|].
  by apply (chat_agrees_with_analysis year_month_to_datetime gemini_pro_only
              format_units format_units format_units format_units
              (Some "How do I save?") march_session).
Defined.

Lemma dataset_is_never_unloaded_witness :
  is_Some (current_data march_session) ∧
  is_Some (current_data
    (run read_budget_csv (λ name, name) year_month_to_datetime no_sample
     gemini_pro_only format_units format_units format_units format_units
       [Upload (upload_of notes_file); Analyze; LoadSample; Chat None]
       march_session)).
Proof.
  split; [by eexists|].
  apply (dataset_is_never_unloaded read_budget_csv (λ name, name) year_month_to_datetime no_sample
     gemini_pro_only format_units format_units format_units format_units). by eexists.
Defined.

Lemma requests_write_only_the_upload_folder_witness :
  (∀ name, endswith name ".csv" = true →
           flat_name (replace_slashes name) = true) ∧
  startswith "financial_data.csv" "uploads/" = false ∧
  files (run read_budget_csv replace_slashes year_month_to_datetime no_sample
     gemini_pro_only format_units format_units format_units format_units
           [Upload (upload_of climbing_file); Analyze; LoadSample]
           march_session) !! "financial_data.csv"
  = files march_session !! "financial_data.csv".
Proof.
  split; [exact replace_slashes_flat|]. split; [reflexivity|].
  apply (requests_write_only_the_upload_folder read_budget_csv replace_slashes
           year_month_to_datetime no_sample gemini_pro_only
           format_units format_units format_units format_units);
    [exact replace_slashes_flat|reflexivity].
Defined.

(** Without that confinement an upload replaces the sample data: with the
    identity for [secure_filename], the upload of [climbing_file] is
    written to [financial_data.csv]. *)
Example unconfined_upload_replaces_the_sample :
  files (upload_file read_budget_csv (λ name, name)
           (upload_of climbing_file) march_session).1 !! "financial_data.csv"
  = Some (stream climbing_file).
Proof. by vm_compute. Qed.

Lemma analysis_and_chat_keep_the_numbers_witness :
  Forall read_only [Analyze; Chat (Some "How do I save?")] ∧
  files (run read_budget_csv (λ name, name) year_month_to_datetime no_sample
     gemini_pro_only format_units format_units format_units format_units [Analyze; Chat (Some "How do I save?")] march_session)
  = files march_session ∧
  df_columns <$> current_data
    (run read_budget_csv (λ name, name) year_month_to_datetime no_sample
     gemini_pro_only format_units format_units format_units format_units [Analyze; Chat (Some "How do I save?")] march_session)
  = df_columns <$> current_data march_session ∧
  df_rows <$> current_data
    (run read_budget_csv (λ name, name) year_month_to_datetime no_sample
     gemini_pro_only format_units format_units format_units format_units [Analyze; Chat (Some "How do I save?")] march_session)
  = df_rows <$> current_data march_session.
Proof.
  split; [repeat (constructor; [exact I|]); constructor|].
  apply (analysis_and_chat_keep_the_numbers read_budget_csv (λ name, name) year_month_to_datetime no_sample
     gemini_pro_only format_units format_units format_units format_units).
  repeat (constructor; [exact I|]); constructor.
Defined.

(** ** The synthetic data generator *)

Lemma py_max_ge_l (a b : Q) : a <= py_max a b.
Proof.
  unfold py_max. destruct (Qltb a b) eqn:E; [|apply Qle_refl].
  by apply Qlt_le_weak, Qltb_lt.
Qed.

Lemma py_max_ge_r (a b : Q) : b <= py_max a b.
Proof.
  unfold py_max. destruct (Qltb a b) eqn:E; [apply Qle_refl|].
  by apply Qltb_ge.
Qed.

Lemma round_half_even_error (x : Q) :
  x - (1 # 2) <= inject_Z (round_half_even x) ∧
  inject_Z (round_half_even x) <= x + (1 # 2).
Proof.
  unfold round_half_even.
  pose proof (Qfloor_le x) as Hlo. pose proof (Qlt_floor x) as Hhi.
  rewrite inject_Z_plus in Hhi. change (inject_Z 1) with 1 in Hhi.
  destruct (Qltb (x - inject_Z (Qfloor x)) (1 # 2)) eqn:E1.
  { apply Qltb_lt in E1. split; lra. }
  apply Qltb_ge in E1.
  destruct (Qltb (1 # 2) (x - inject_Z (Qfloor x))) eqn:E2.
  { apply Qltb_lt in E2. rewrite inject_Z_plus.
    change (inject_Z 1) with 1. split; lra. }
  apply Qltb_ge in E2.
  destruct (Z.even (Qfloor x)); [|rewrite inject_Z_plus;
    change (inject_Z 1) with 1]; split; lra.
Qed.

Lemma round_half_even_ge (x : Q) (n : Z) :
  inject_Z n <= x → (n <= round_half_even x)%Z.
Proof.
  intros Hn. assert (n <= Qfloor x)%Z as Hf.
  { rewrite <- (Qfloor_Z n). by apply Qfloor_resp_le. }
  unfold round_half_even.
  repeat match goal with |- context [if ?b then _ else _] => destruct b end;
    lia.
Qed.

Lemma round2_error (x : Q) :
  x - (1 # 200) <= round2 x ∧ round2 x <= x + (1 # 200).
Proof.
  unfold round2. destruct (round_half_even_error (x * 100)) as [Hlo Hhi].
  generalize dependent (inject_Z (round_half_even (x * 100))). intros q Hlo Hhi.
  assert (q / 100 == q * (1 # 100)) as -> by field. split; lra.
Qed.

Lemma round2_ge (x : Q) (n : Z) :
  inject_Z n <= x * 100 → inject_Z n / 100 <= round2 x.
Proof.
  intros Hn%round_half_even_ge. unfold round2. rewrite Zle_Qle in Hn.
  generalize dependent (inject_Z (round_half_even (x * 100))).
  generalize dependent (inject_Z n). intros p q Hpq.
  assert (q / 100 == q * (1 # 100)) as -> by field.
  assert (p / 100 == p * (1 # 100)) as -> by field. lra.
Qed.

Lemma round2_floor (x b : Q) (n : Z) :
  b == inject_Z n / 100 → b <= x → b <= round2 x.
Proof.
  intros Hb Hx. rewrite Hb in *. apply round2_ge.
  generalize dependent (inject_Z n). intros p _ Hx.
  assert (p / 100 == p * (1 # 100)) as Hp by field. rewrite Hp in Hx. lra.
Qed.

Lemma foldr_Qplus_lt (lows highs : list Q) :
  Forall2 (λ e i, e < i) lows highs → lows ≠ [] →
  foldr Qplus 0 lows < foldr Qplus 0 highs.
Proof.
  induction 1 as [|e i lows highs Hei Hrest IH]; [done|]. intros _. simpl.
  destruct Hrest as [|e' i' lows' highs' He' Hrest']; simpl in *; [lra|].
  assert (e' + foldr Qplus 0 lows' < i' + foldr Qplus 0 highs')
    by (by apply IH).
  lra.
Qed.

Lemma foldr_Qplus_pos (l : list Q) (b : Q) :
  0 < b → Forall (λ v, b <= v) l → l ≠ [] → 0 < foldr Qplus 0 l.
Proof.
  intros Hb. induction 1 as [|v l Hv Hrest IH]; [done|]. intros _. simpl.
  destruct Hrest; simpl in *; [lra|].
  assert (0 < x + foldr Qplus 0 l) by (by apply IH). lra.
Qed.

Section GeneratorProperties.

Variable normal : nat → Q → Q.

Local Abbreviation generated := (generate_synthetic_financial_data normal).

(** What every month's amounts satisfy, whatever the draws. *)
Lemma month_amounts_bounds (i : nat) :
  let a := month_amounts normal i in
  80000 <= a_income a ∧
  a_net_income a == a_income a - a_total_expenses a ∧
  a_total_expenses a <= a_income a * (3 # 4) + 13000 ∧
  7000 < a_net_income a ∧
  5000 <= a_savings a ∧
  2000 <= a_investments a ∧
  (a_income a * (3 # 4) < 68500 → a_income a * (3 # 4) < a_total_expenses a).
Proof.
  unfold month_amounts. cbv zeta. cbn [a_income a_net_income a_total_expenses
    a_savings a_investments].
  pose proof (py_max_ge_l 80000 (85000 + normal (10 * i) 3000)) as Hi.
  pose proof (py_max_ge_l 4000 (5000 + normal (10 * i + 1) 300)) as Hu.
  pose proof (py_max_ge_l 10000 (12000 + normal (10 * i + 2) 1000)) as Hg.
  pose proof (py_max_ge_l 3000 (4000 + normal (10 * i + 3) 300)) as Ht.
  pose proof (py_max_ge_l 5000 (6000 + normal (10 * i + 4) 800)) as He.
  pose proof (py_max_ge_l 1500 (2000 + normal (10 * i + 5) 300)) as Hh.
  pose proof (py_max_ge_l 4000 (5000 + normal (10 * i + 6) 600)) as Hs.
  pose proof (py_max_ge_l 3000 (4000 + normal (10 * i + 7) 500)) as Hd.
  generalize dependent (py_max 80000 (85000 + normal (10 * i) 3000)).
  generalize dependent (py_max 4000 (5000 + normal (10 * i + 1) 300)).
  generalize dependent (py_max 10000 (12000 + normal (10 * i + 2) 1000)).
  generalize dependent (py_max 3000 (4000 + normal (10 * i + 3) 300)).
  generalize dependent (py_max 5000 (6000 + normal (10 * i + 4) 800)).
  generalize dependent (py_max 1500 (2000 + normal (10 * i + 5) 300)).
  generalize dependent (py_max 4000 (5000 + normal (10 * i + 6) 600)).
  generalize dependent (py_max 3000 (4000 + normal (10 * i + 7) 500)).
  intros d Hd s Hs h Hh e He t Ht g Hg u Hu income Hi.
  split; [done|]. split; [reflexivity|].
  match goal with |- context [py_max 5000 ?x] =>
    pose proof (py_max_ge_l 5000 x) as Hsav; generalize dependent (py_max 5000 x)
  end.
  intros savings Hsav.
  match goal with |- context [py_max 2000 ?x] =>
    pose proof (py_max_ge_l 2000 x) as Hinv
  end.
  set (T := 25000 + u + 3000 + 8000 + g + t + e + h + s + d + 2000).
  assert (68500 <= T) as HT by (unfold T; lra).
  destruct (Qltb (income * (3 # 4)) T) eqn:E.
  - apply Qltb_lt in E.
    set (f := income * (3 # 4) / T).
    assert (f * T == income * (3 # 4)) as HfT by (unfold f; field; lra).
    assert (0 < f) as Hf0.
    { unfold f. apply Qlt_shift_div_l; lra. }
    assert (f < 1) as Hf1.
    { unfold f. apply Qlt_shift_div_r; lra. }
    assert (25000 * f + u * f + 3000 + 8000 + g * f + t * f + e * f + h * f
            + s * f + d * f + 2000 == f * T - 13000 * f + 13000) as Htot
      by (unfold T; ring).
    rewrite Htot. split_and!; try done; lra.
  - apply Qltb_ge in E. fold T. split_and!; try done; lra.
Qed.

Lemma generated_columns :
  df_columns generated !! "Income" = Some (rounded_column normal a_income) ∧
  df_columns generated !! "Total_Expenses"
  = Some (rounded_column normal a_total_expenses) ∧
  df_columns generated !! "Savings" = Some (rounded_column normal a_savings) ∧
  df_columns generated !! "Investments"
  = Some (rounded_column normal a_investments) ∧
  df_columns generated !! "Net_Income"
  = Some (rounded_column normal a_net_income) ∧
  has_columns generated summary_columns.
Proof.
  unfold generate_synthetic_financial_data, frame. cbn [df_columns].
  unfold has_columns, summary_columns, expense_columns. cbn [app].
  repeat rewrite list_to_map_cons.
  split_and!;
    try (repeat (rewrite lookup_insert_ne by done); by rewrite lookup_insert_eq).
  repeat (constructor;
    [eexists; cbn [df_columns]; repeat rewrite list_to_map_cons;
     repeat (rewrite lookup_insert_ne by done);
     by rewrite lookup_insert_eq|]).
  constructor.
Qed.

Lemma rounded_column_Forall (field : Amounts → Q) (P : Q → Prop) :
  (∀ i, P (round2 (field (month_amounts normal i)))) →
  Forall P (rounded_column normal field).
Proof.
  intros H. unfold rounded_column. apply Forall_map, Forall_forall.
  intros i _. apply H.
Qed.

Lemma rounded_column_lookup (field : Amounts → Q) (i : nat) (v : Q) :
  rounded_column normal field !! i = Some v →
  v = round2 (field (month_amounts normal i)).
Proof.
  unfold rounded_column. rewrite lookup_map.
  destruct (seq 0 12 !! i) as [j|] eqn:Hj; [|done].
  apply lookup_seq in Hj as [-> _]. by intros [= <-].
Qed.

Lemma rounded_column_nonempty (field : Amounts → Q) :
  rounded_column normal field ≠ [].
Proof.
  unfold rounded_column. change (seq 0 12) with (0%nat :: seq 1 11). done.
Qed.

Lemma rounded_columns_bounds :
  Forall (λ v, 80000 <= v) (rounded_column normal a_income) ∧
  Forall (λ v, 7000 <= v) (rounded_column normal a_net_income) ∧
  Forall (λ v, 5000 <= v) (rounded_column normal a_savings) ∧
  Forall (λ v, 2000 <= v) (rounded_column normal a_investments) ∧
  Forall2 (λ e i, e < i) (rounded_column normal a_total_expenses)
                         (rounded_column normal a_income).
Proof.
  split_and!.
  - apply rounded_column_Forall. intros i.
    destruct (month_amounts_bounds i) as (H & _).
    apply (round2_floor _ _ 8000000); [reflexivity|lra].
  - apply rounded_column_Forall. intros i.
    destruct (month_amounts_bounds i) as (_ & _ & _ & H & _).
    apply (round2_floor _ _ 700000); [reflexivity|lra].
  - apply rounded_column_Forall. intros i.
    destruct (month_amounts_bounds i) as (_ & _ & _ & _ & H & _).
    apply (round2_floor _ _ 500000); [reflexivity|lra].
  - apply rounded_column_Forall. intros i.
    destruct (month_amounts_bounds i) as (_ & _ & _ & _ & _ & H & _).
    apply (round2_floor _ _ 200000); [reflexivity|lra].
  - unfold rounded_column. generalize (seq 0 12). intros l.
    induction l as [|i l IH]; cbn [map]; constructor; [|done].
    destruct (month_amounts_bounds i) as (_ & Hnet & _ & H & _).
    pose proof (round2_error (a_total_expenses (month_amounts normal i))).
    pose proof (round2_error (a_income (month_amounts normal i))). lra.
Qed.

(** X26. Whatever the random draws, the generated dataset has twelve rows
    in which income is at least 80000, net income at least 7000, savings at
    least 5000, investments at least 2000, and total expenses are below
    income. *)
Theorem generated_amounts_keep_their_floors :
  let df := generate_synthetic_financial_data normal in
  ∃ income expenses net savings investments,
    df_columns df !! "Income" = Some income ∧
    df_columns df !! "Total_Expenses" = Some expenses ∧
    df_columns df !! "Net_Income" = Some net ∧
    df_columns df !! "Savings" = Some savings ∧
    df_columns df !! "Investments" = Some investments ∧
    df_rows df = 12%nat ∧ length income = 12%nat ∧
    Forall (λ v, 80000 <= v) income ∧
    Forall (λ v, 7000 <= v) net ∧
    Forall (λ v, 5000 <= v) savings ∧
    Forall (λ v, 2000 <= v) investments ∧
    Forall2 (λ e i, e < i) expenses income.
Proof.
  cbv zeta.
  destruct generated_columns as (Hi & He & Hs & Hv & Hn & _).
  destruct rounded_columns_bounds as (B1 & B2 & B3 & B4 & B5).
  do 5 eexists. by split_and!.
Qed.

(** X27. Whatever the random draws, the generated [Net_Income] of a row
    differs from its generated [Income] minus [Total_Expenses] by at most a
    cent and a half: the three are rounded separately. *)
Theorem generated_net_income_is_within_a_cent_and_a_half (i : nat) :
  (i < 12)%nat →
  let df := generate_synthetic_financial_data normal in
  ∃ net income expenses n inc e,
    df_columns df !! "Net_Income" = Some net ∧
    df_columns df !! "Income" = Some income ∧
    df_columns df !! "Total_Expenses" = Some expenses ∧
    net !! i = Some n ∧ income !! i = Some inc ∧ expenses !! i = Some e ∧
    Qabs (n - (inc - e)) <= 3 # 200.
Proof.
  intros Hi. cbv zeta.
  destruct generated_columns as (Hinc & Hexp & _ & _ & Hnet & _).
  assert (∀ field, rounded_column normal field !! i
                   = Some (round2 (field (month_amounts normal i)))) as Hrow.
  { intros field. unfold rounded_column. rewrite lookup_map.
    by rewrite (proj2 (lookup_seq 0 12 i i) (conj eq_refl Hi)). }
  do 6 eexists.
  split_and!; [exact Hnet|exact Hinc|exact Hexp
              |apply Hrow|apply Hrow|apply Hrow|].
  destruct (month_amounts_bounds i) as (_ & Hn & _).
  pose proof (round2_error (a_net_income (month_amounts normal i))).
  pose proof (round2_error (a_total_expenses (month_amounts normal i))).
  pose proof (round2_error (a_income (month_amounts normal i))).
  apply Qabs_Qle_condition. split; lra.
Qed.

(** X28. Whatever the random draws, the summary of the generated dataset
    exists and reports no month in deficit, a positive net income, positive
    savings and positive savings rates. *)
Theorem generated_data_has_no_deficit :
  ∃ s, get_financial_summary generated = Ok s ∧
       months_in_deficit s = 0%nat ∧
       0 < net_income s ∧ 0 < total_savings s ∧
       0 < savings_rate s ∧ 0 < traditional_savings_rate s.
Proof.
  destruct generated_columns as (Hi & He & Hs & Hv & Hn & Hcols).
  destruct rounded_columns_bounds as (B1 & B2 & B3 & B4 & B5).
  destruct (summary_total _ Hcols) as [s Hsum]. exists s. split; [done|].
  destruct (summary_inv _ _ Hsum)
    as (income & expenses & savings & investments & net & cols & largest
        & Hi' & He' & Hs' & _ & Hn' & _ & _ & ->).
  rewrite Hi in Hi'. rewrite He in He'. rewrite Hs in Hs'. rewrite Hn in Hn'.
  injection Hi' as <-. injection He' as <-. injection Hs' as <-.
  injection Hn' as <-.
  cbn [months_in_deficit net_income total_savings savings_rate
       traditional_savings_rate].
  assert (0 < Series_sum (rounded_column normal a_income)
              - Series_sum (rounded_column normal a_total_expenses)) as Hnet.
  { rewrite !Series_sum_total.
    pose proof (foldr_Qplus_lt _ _ B5 (rounded_column_nonempty _)). lra. }
  assert (0 < Series_sum (rounded_column normal a_savings)) as Hsav.
  { rewrite Series_sum_total.
    apply (foldr_Qplus_pos _ 5000);
      [reflexivity|done|apply rounded_column_nonempty]. }
  assert (0 < Series_sum (rounded_column normal a_income)) as Hinc.
  { rewrite Series_sum_total.
    apply (foldr_Qplus_pos _ 80000);
      [reflexivity|done|apply rounded_column_nonempty]. }
  apply Qltb_lt in Hnet as Hnet', Hinc as Hinc'. rewrite Hnet', Hinc'.
  split_and!; [| exact Hnet | exact Hsav | |].
  - rewrite mask_sum_count. apply count_negative_zero.
    eapply Forall_impl; [exact B2|]. intros v Hv'. cbv beta in Hv'. lra.
  - apply Qmult_lt_0_compat; [|reflexivity].
    apply Qlt_shift_div_l; [done|]. lra.
  - apply Qmult_lt_0_compat; [|reflexivity].
    apply Qlt_shift_div_l; [done|]. lra.
Qed.

(** X29. Whatever the random draws, a month's total expenses stay below
    its income and within 13000 of three quarters of it; but for an income
    below 91333 they exceed the three quarters the scaling aims at, because
    insurance, loan payments and subscriptions are not scaled. *)
Theorem generated_expenses_overshoot_the_cap (i : nat) :
  let a := month_amounts normal i in
  a_total_expenses a < a_income a ∧
  a_total_expenses a <= a_income a * (3 # 4) + 13000 ∧
  (a_income a < 91333 → a_income a * (3 # 4) < a_total_expenses a).
Proof.
  destruct (month_amounts_bounds i) as (Hi & Hnet & Hcap & H7 & _ & _ & Hover).
  cbv zeta in *. split_and!; [lra|done|]. intros Hlow. apply Hover. lra.
Qed.

End GeneratorProperties.

Lemma generated_net_income_is_within_a_cent_and_a_half_witness :
  (0 < 12)%nat ∧
  ∃ net income expenses n inc e,
    df_columns (generate_synthetic_financial_data no_noise) !! "Net_Income"
    = Some net ∧
    df_columns (generate_synthetic_financial_data no_noise) !! "Income"
    = Some income ∧
    df_columns (generate_synthetic_financial_data no_noise) !! "Total_Expenses"
    = Some expenses ∧
    net !! 0%nat = Some n ∧ income !! 0%nat = Some inc ∧
    expenses !! 0%nat = Some e ∧
    Qabs (n - (inc - e)) <= 3 # 200.
Proof.
  split; [lia|].
  apply (generated_net_income_is_within_a_cent_and_a_half no_noise 0). lia.
Defined.

(** X30. The twelve generated period labels are in order but are not
    twelve different months: dates thirty days apart from the first of
    January 2024 give [2024-01] and [2024-03] twice, and neither February
    nor December. *)
Theorem generated_months_repeat_and_skip :
  length generated_months = 12%nat ∧
  nondecreasing String.leb generated_months = true ∧
  ¬ NoDup generated_months ∧
  ("2024-02" ∉ generated_months) ∧ ("2024-12" ∉ generated_months).
Proof.
  assert (generated_months
          = ["2024-01"; "2024-01"; "2024-03"; "2024-03"; "2024-04"; "2024-05";
             "2024-06"; "2024-07"; "2024-08"; "2024-09"; "2024-10"; "2024-11"])
    as -> by (by vm_compute).
  split_and!; [done|by vm_compute| | |].
  - intros [Hnotin _]%NoDup_cons. apply Hnotin. by left.
  - intros H. repeat (apply elem_of_cons in H as [H|H]; [done|]).
    by apply elem_of_nil in H.
  - intros H. repeat (apply elem_of_cons in H as [H|H]; [done|]).
    by apply elem_of_nil in H.
Qed.
